(** * Metadata-driven organisation of animation files

    A shallow embedding of the file-organisation logic of the batch
    retargeting add-on: [anim_file_crawler.py] (crawler, CSV metadata
    processor, organizer) and the parts of [__init__.py] that drive it
    ([clean_group_name_to_be_filename] and the operator's [execute]).

    Conventions of the model.
    - A Python [str] is a [string]; [str.lower] acts on the letters A-Z.
    - [os.path] is [posixpath]: the separator is ["/"].
    - A directory is a finite tree whose children are listed in the
      order [os.listdir] returns them.
    - A CSV file is the table of cells the [csv] module writes and
      reads: a list of rows, each a list of cell texts, the first row
      being the header.  Quoting at the character level is not modelled.
    - A mutable list or dict that the code updates in place is threaded
      through the functions as a value.
    - Operators of the host application are recorded as events. *)

From stdpp Require Import gmap strings list fin_maps.
From Stdlib Require Import Ascii String ZArith Lia.

Local Open Scope string_scope.
Local Open Scope list_scope.

(* ===================================================================== *)
(** ** Python strings *)
(* ===================================================================== *)

Module PyStr.

(** [c.lower()] on one character of the range A-Z. *)
Definition lower_char (c : ascii) : ascii :=
  let n := nat_of_ascii c in
  if Nat.leb 65 n && Nat.leb n 90 then ascii_of_nat (n + 32) else c.

(** [s.lower()] *)
Fixpoint lower (s : string) : string :=
  match s with
  | EmptyString => EmptyString
  | String c r => String (lower_char c) (lower r)
  end.

(** [s.startswith(p)] *)
Fixpoint startswith (s p : string) : bool :=
  match p, s with
  | EmptyString, _ => true
  | String _ _, EmptyString => false
  | String b p', String a s' => Ascii.eqb a b && startswith s' p'
  end.

(** [s.endswith(suf)]: some tail of [s] is [suf]. *)
Fixpoint endswith (s suf : string) : bool :=
  String.eqb s suf ||
  match s with
  | EmptyString => false
  | String _ r => endswith r suf
  end.

(** [needle in hay] *)
Fixpoint str_in (needle hay : string) : bool :=
  startswith hay needle ||
  match hay with
  | EmptyString => false
  | String _ r => str_in needle r
  end.

(** [s.rfind(c)] for a one-character [c]: the highest index of [c],
    or -1. *)
Fixpoint rfind (c : ascii) (s : string) : Z :=
  match s with
  | EmptyString => (-1)%Z
  | String x r =>
      let k := rfind c r in
      if (0 <=? k)%Z then (k + 1)%Z
      else if Ascii.eqb x c then 0%Z else (-1)%Z
  end.

(** [s[i:]] for [0 <= i] *)
Fixpoint slice_from (i : nat) (s : string) : string :=
  match i, s with
  | O, _ => s
  | S _, EmptyString => EmptyString
  | S j, String _ r => slice_from j r
  end.

(** [str(b)] for a [bool] *)
Definition str_of_bool (b : bool) : string :=
  if b then "True" else "False".

End PyStr.

(* ===================================================================== *)
(** ** os.path (posixpath) *)
(* ===================================================================== *)

Module OsPath.
Import PyStr.

Definition sep : ascii := "/"%char.

(** [os.path.join(a, b)] *)
Definition join (a b : string) : string :=
  if startswith b "/" then b
  else if String.eqb a "" || endswith a "/" then a ++ b
  else a ++ "/" ++ b.

(** [os.path.basename(p)]: [i = p.rfind('/') + 1; return p[i:]] *)
Definition basename (p : string) : string :=
  let i := (rfind sep p + 1)%Z in
  slice_from (Z.to_nat i) p.

(** [os.path.splitext(p)[0]] for a [p] without separator
    ([genericpath._splitext] with [sepIndex = -1]): the text before
    the last dot, unless only dots come before it. *)
Fixpoint all_dots (s : string) : bool :=
  match s with
  | EmptyString => true
  | String c r => Ascii.eqb c "."%char && all_dots r
  end.

Definition splitext_root (p : string) : string :=
  let dotIndex := rfind "."%char p in
  if (0 <=? dotIndex)%Z then
    let head := String.substring 0 (Z.to_nat dotIndex) p in
    if all_dots head then p else head
  else p.

End OsPath.

(* ===================================================================== *)
(** ** The file tree that os.listdir and os.path.isdir observe *)
(* ===================================================================== *)

(** An entry of a directory: a plain file, or a sub-directory with its
    own entries in listing order. *)
#[local] Unset Elimination Schemes.
Inductive fs_node : Type :=
| FsFile (name : string)
| FsDir (name : string) (children : list fs_node).
#[local] Set Elimination Schemes.

(* ===================================================================== *)
(** ** anim_file_crawler.py: data classes *)
(* ===================================================================== *)

(** [AnimFileEntryMetadata]: a line item of the metadata file. *)
Record AnimFileEntryMetadata : Type := mkMetadata {
  filename : string;
  group : string;
  loop : bool;
  root_motion : bool;
  tags : string;
  orig_path : string
}.

(** [AnimFileEntry] *)
Record AnimFileEntry : Type := mkEntry {
  full_path : string;
  relative_path : string;
  base_name : string;
  should_loop : bool
}.

Global Instance AnimFileEntryMetadata_eq_dec : EqDecision AnimFileEntryMetadata.
Proof. solve_decision. Defined.

Global Instance AnimFileEntry_eq_dec : EqDecision AnimFileEntry.
Proof. solve_decision. Defined.

(* ===================================================================== *)
(** ** anim_file_crawler.py: AnimFileCrawler *)
(* ===================================================================== *)

Module AnimFileCrawler.
Import PyStr.

Record t : Type := mk {
  root_path : string;
  loop : bool;
  filename_must_have : option string;
  filename_must_not_have : option string
}.

(** [AnimFileCrawler(root_path)] with the defaults of [__init__]. *)
Definition init (root : string) : t :=
  {| root_path := root; loop := false;
     filename_must_have := None; filename_must_not_have := None |}.

(** [should_loop(self, filepath)] *)
Definition should_loop (filepath : string) : bool :=
  let basename := lower (OsPath.basename filepath) in
  if str_in "_to_" basename then false
  else if str_in "jump" basename then false
  else if str_in "walk" basename then true
  else if str_in "sprint" basename then true
  else if str_in "shuffle" basename then true
  else if str_in "turn" basename then true
  else if str_in "idle" basename then true
  else false.

(** The [include] flag computed for a name that ends in [.fbx]. *)
Definition include (self : t) (filename_lower : string) : bool :=
  let include := true in
  let include :=
    match filename_must_have self with
    | Some must_have =>
        if negb (str_in (lower must_have) filename_lower) then false
        else include
    | None => include
    end in
  let include :=
    match filename_must_not_have self with
    | Some must_not_have =>
        if str_in (lower must_not_have) filename_lower then false
        else include
    | None => include
    end in
  include.

Section Crawl.
(** [os.path.relpath(path, start)]; it depends on the process's
    working directory and is left to the host. *)
Variable relpath : string -> string -> string.

(** The entry built for an included file. *)
Definition make_entry (self : t) (full_path : string) : AnimFileEntry :=
  mkEntry full_path
          (relpath full_path (root_path self))
          (OsPath.basename full_path)
          (should_loop full_path).

(** [crawl_folders_for_anims(self, folder_path, out_entries)], where
    [path_contents] is what [os.listdir(folder_path)] returns and
    [os.path.isdir] holds of the [FsDir] nodes.  The result is
    [out_entries] after the call. *)
Fixpoint crawl_node (self : t) (folder_path : string) (node : fs_node)
    (out_entries : list AnimFileEntry) : list AnimFileEntry :=
  match node with
  | FsDir filename children =>
      let full_path := OsPath.join folder_path filename in
      fold_left (fun out child => crawl_node self full_path child out)
                children out_entries
  | FsFile filename =>
      let filename_lower := lower filename in
      let full_path := OsPath.join folder_path filename in
      if endswith filename_lower ".fbx" then
        if include self filename_lower
        then out_entries ++ [make_entry self full_path]
        else out_entries
      else out_entries
  end.

Definition crawl_folders_for_anims (self : t) (folder_path : string)
    (path_contents : list fs_node) (out_entries : list AnimFileEntry)
    : list AnimFileEntry :=
  fold_left (fun out child => crawl_node self folder_path child out)
            path_contents out_entries.
End Crawl.

End AnimFileCrawler.

(* ===================================================================== *)
(** ** Exceptions *)
(* ===================================================================== *)

Inductive exn : Type :=
| FileNotFoundError (path : string)
| KeyError (key : string)
| ValueError (what : string)
| TypeError (missing : string)
| AttributeError (attr : string).

Inductive result (A : Type) : Type :=
| Ok (a : A)
| Raise (e : exn).
Arguments Ok {A} a.
Arguments Raise {A} e.

Global Instance result_bind : MBind result :=
  fun A B k r =>
    match r with
    | Ok a => k a
    | Raise e => Raise e
    end.

Global Instance result_ret : MRet result := fun A a => Ok a.

(** [d[key]] on a dict with string keys. *)
Definition getitem {V : Type} (d : gmap string V) (key : string) : result V :=
  match d !! key with
  | Some v => Ok v
  | None => Raise (KeyError key)
  end.

(* ===================================================================== *)
(** ** Insertion-ordered dicts *)
(* ===================================================================== *)

(** A Python dict whose iteration order the code relies on: the keys
    in insertion order, each once. *)
Module ODict.
Section Ops.
Context {V : Type}.

(** [d.get(key)] *)
Fixpoint get (key : string) (d : list (string * V)) : option V :=
  match d with
  | [] => None
  | (k, v) :: rest => if String.eqb k key then Some v else get key rest
  end.

(** [d[key] = v]: a key already present keeps its position. *)
Fixpoint set (key : string) (v : V) (d : list (string * V))
    : list (string * V) :=
  match d with
  | [] => [(key, v)]
  | (k, w) :: rest =>
      if String.eqb k key then (k, v) :: rest
      else (k, w) :: set key v rest
  end.

(** [d.keys()] *)
Definition keys (d : list (string * V)) : list string := map fst d.
End Ops.
End ODict.

(* ===================================================================== *)
(** ** The csv module, at the level of cells *)
(* ===================================================================== *)

(** A value handed to the CSV writer. *)
Inductive pyval : Type :=
| PStr (s : string)
| PBool (b : bool).

(** [str(v)], which the writer applies to a value that is not text. *)
Definition str (v : pyval) : string :=
  match v with
  | PStr s => s
  | PBool b => PyStr.str_of_bool b
  end.

Module Csv.

(** [dict(zip(fieldnames, row))]: a later duplicate of a field name
    overwrites an earlier one. *)
Definition dict_of_zip (fieldnames row : list string) : gmap string string :=
  fold_left (fun d kv => <[fst kv := snd kv]> d) (zip fieldnames row) ∅.

Definition is_blank (row : list string) : bool :=
  match row with [] => true | _ => false end.

(** The rows [csv.DictReader] yields: the first row of the table
    gives the field names, blank rows are skipped, cells beyond the
    field names are not reachable by name.  A row shorter than the
    field names leaves the remaining names out of its dict (Python
    binds them to [None]). *)
Definition DictReader (table : list (list string))
    : list (gmap string string) :=
  match table with
  | [] => []
  | fieldnames :: rows =>
      map (dict_of_zip fieldnames)
          (List.filter (fun row => negb (is_blank row)) rows)
  end.

(** [DictWriter.writerow(rowdict)]: a key outside the field names is
    a [ValueError]; a field name without value is written empty. *)
Definition writerow (fieldnames : list string) (rowdict : gmap string pyval)
    : result (list string) :=
  if forallb (fun k => bool_decide (k ∈ fieldnames))
             (map fst (map_to_list rowdict))
  then Ok (map (fun key => str (default (PStr "") (rowdict !! key)))
               fieldnames)
  else Raise (ValueError "dict contains fields not in fieldnames").

End Csv.

(* ===================================================================== *)
(** ** anim_file_crawler.py: AnimFileEntryMetadataProcessor *)
(* ===================================================================== *)

(** The generated [__init__] of the dataclass [AnimFileEntryMetadata]:
    every field is required; [None] stands for an argument the call
    does not pass. *)
Definition AnimFileEntryMetadata_init
    (filename group : option string) (loop root_motion : option bool)
    (tags orig_path : option string) : result AnimFileEntryMetadata :=
  match filename, group, loop, root_motion, tags, orig_path with
  | Some f, Some g, Some l, Some r, Some t, Some o =>
      Ok (mkMetadata f g l r t o)
  | None, _, _, _, _, _ => Raise (TypeError "filename")
  | _, None, _, _, _, _ => Raise (TypeError "group")
  | _, _, None, _, _, _ => Raise (TypeError "loop")
  | _, _, _, None, _, _ => Raise (TypeError "root_motion")
  | _, _, _, _, None, _ => Raise (TypeError "tags")
  | _, _, _, _, _, None => Raise (TypeError "orig_path")
  end.

(** [dataclasses.asdict(entry)] *)
Definition asdict (entry : AnimFileEntryMetadata) : gmap string pyval :=
  <["orig_path" := PStr (orig_path entry)]>
  (<["tags" := PStr (tags entry)]>
  (<["root_motion" := PBool (root_motion entry)]>
  (<["loop" := PBool (loop entry)]>
  (<["group" := PStr (group entry)]>
  (<["filename" := PStr (filename entry)]> ∅))))).

Module AnimFileEntryMetadataProcessor.

(** The body of the [for row in csv_reader] loop up to the
    construction of [metadata]. *)
Definition metadata_of_row (row : gmap string string)
    : result AnimFileEntryMetadata :=
  filename ← getitem row "filename";
  group ← getitem row "group";
  loop ← getitem row "loop";
  root_motion ← getitem row "root_motion";
  tags ← getitem row "tags";
  orig_path ← getitem row "orig_path";
  AnimFileEntryMetadata_init
    (Some filename) (Some group)
    (Some (String.eqb loop "TRUE"))
    (Some (String.eqb root_motion "TRUE"))
    (Some tags) (Some orig_path).

(** The loop of [load_metadata_list] over the remaining rows, [lst]
    being the local [list] built so far. *)
Fixpoint load_rows (rows : list (gmap string string))
    (ignore_root_motion : bool) (lst : list AnimFileEntryMetadata)
    : result (list AnimFileEntryMetadata) :=
  match rows with
  | [] => Ok lst
  | row :: rest =>
      metadata ← metadata_of_row row;
      if negb ignore_root_motion || negb (root_motion metadata)
      then load_rows rest ignore_root_motion (lst ++ [metadata])
      else load_rows rest ignore_root_motion lst
  end.

(** [load_metadata_list(csv_filename, ignore_root_motion)] on the
    files [fs]. *)
Definition load_metadata_list (fs : gmap string (list (list string)))
    (csv_filename : string) (ignore_root_motion : bool)
    : result (list AnimFileEntryMetadata) :=
  match fs !! csv_filename with
  | None => Raise (FileNotFoundError csv_filename)
  | Some table => load_rows (Csv.DictReader table) ignore_root_motion []
  end.

Definition fieldnames : list string :=
  ["filename"; "group"; "loop"; "root_motion"; "tags"; "orig_path"].

(** The loop of [save_metadata_list], [out_file] being the rows
    written so far. *)
Fixpoint write_rows (entry_list : list AnimFileEntryMetadata)
    (out_file : list (list string)) : result (list (list string)) :=
  match entry_list with
  | [] => Ok out_file
  | entry :: rest =>
      row ← Csv.writerow fieldnames (asdict entry);
      write_rows rest (out_file ++ [row])
  end.

(** [save_metadata_list(csv_filename, entry_list)]: the files after
    the call. *)
Definition save_metadata_list (fs : gmap string (list (list string)))
    (csv_filename : string) (entry_list : list AnimFileEntryMetadata)
    : result (gmap string (list (list string))) :=
  let out_file := [fieldnames] in
  out_file ← write_rows entry_list out_file;
  Ok (<[csv_filename := out_file]> fs).

Section Template.
Variable relpath : string -> string -> string.

(** The second loop of [build_metadata_list_template_from_folder]:
    the constructor is called without [root_motion]. *)
Fixpoint template_rows (anim_entries : list AnimFileEntry)
    (anim_metadata_list : list AnimFileEntryMetadata)
    : result (list AnimFileEntryMetadata) :=
  match anim_entries with
  | [] => Ok anim_metadata_list
  | anim_entry :: rest =>
      metadata ← AnimFileEntryMetadata_init
                     (Some (base_name anim_entry))
                     (Some (relative_path anim_entry))
                     (Some (should_loop anim_entry))
                     None
                     (Some "")
                     (Some (relative_path anim_entry));
      template_rows rest (anim_metadata_list ++ [metadata])
  end.

(** [build_metadata_list_template_from_folder(root_path)], where
    [root_contents] is the listing of [root_path]. *)
Definition build_metadata_list_template_from_folder
    (root_path : string) (root_contents : list fs_node)
    : result (list AnimFileEntryMetadata) :=
  let anim_crawler := AnimFileCrawler.init root_path in
  let anim_entries :=
    AnimFileCrawler.crawl_folders_for_anims relpath anim_crawler
      (AnimFileCrawler.root_path anim_crawler) root_contents [] in
  template_rows anim_entries [].
End Template.

End AnimFileEntryMetadataProcessor.

(* ===================================================================== *)
(** ** anim_file_crawler.py: AnimMetadataGroup, AnimMetadataOrganizer *)
(* ===================================================================== *)

Module AnimMetadataGroup.
Record t : Type := mk {
  group : string;
  entries : list AnimFileEntry
}.
End AnimMetadataGroup.

Module AnimMetadataOrganizer.

(** The attributes of an organizer.  [_anim_metadata_list] has no
    value until [set_anim_metadata_list] runs; the two t-pose
    attributes default to [None] at class level. *)
Record t : Type := mk {
  _group_map : list (string * AnimMetadataGroup.t);
  _anim_metadata_list : option (list AnimFileEntryMetadata);
  _tpose_metadata : option AnimFileEntryMetadata;
  _tpose_file_entry : option AnimFileEntry
}.

(** [AnimMetadataOrganizer()] *)
Definition init : t :=
  {| _group_map := []; _anim_metadata_list := None;
     _tpose_metadata := None; _tpose_file_entry := None |}.

(** The loop of [set_anim_metadata_list]: stop at the first row
    whose tags are ['tpose']. *)
Fixpoint find_tpose (anim_metadata_list : list AnimFileEntryMetadata)
    : option AnimFileEntryMetadata :=
  match anim_metadata_list with
  | [] => None
  | anim_metadata :: rest =>
      if String.eqb (tags anim_metadata) "tpose" then Some anim_metadata
      else find_tpose rest
  end.

(** [set_anim_metadata_list(self, anim_metadata_list)] *)
Definition set_anim_metadata_list (self : t)
    (anim_metadata_list : list AnimFileEntryMetadata) : t :=
  {| _group_map := _group_map self;
     _anim_metadata_list := Some anim_metadata_list;
     _tpose_metadata := find_tpose anim_metadata_list;
     _tpose_file_entry := _tpose_file_entry self |}.

(** The loop of [try_find_anim_metadata_for_entry]. *)
Fixpoint find_metadata (metadata_list : list AnimFileEntryMetadata)
    (anim_entry : AnimFileEntry) : option AnimFileEntryMetadata :=
  match metadata_list with
  | [] => None
  | metadata :: rest =>
      if String.eqb (filename metadata) (base_name anim_entry)
      then Some metadata
      else find_metadata rest anim_entry
  end.

(** [try_find_anim_metadata_for_entry(self, anim_entry)] *)
Definition try_find_anim_metadata_for_entry (self : t)
    (anim_entry : AnimFileEntry) : result (option AnimFileEntryMetadata) :=
  match _anim_metadata_list self with
  | None => Raise (AttributeError "_anim_metadata_list")
  | Some metadata_list => Ok (find_metadata metadata_list anim_entry)
  end.

(** [add_to_group(self, group, anim_entry)].  [==] on the dataclass
    compares field by field, and [None == None] holds.  The group
    object stored in the dict is the one whose list is appended to. *)
Definition add_to_group (self : t) (group : string)
    (anim_entry : AnimFileEntry) : result t :=
  let '(group_map, metadata_group) :=
    match ODict.get group (_group_map self) with
    | None =>
        let metadata_group := AnimMetadataGroup.mk group [] in
        (ODict.set group metadata_group (_group_map self), metadata_group)
    | Some metadata_group => (_group_map self, metadata_group)
    end in
  tpose_file_entry ←
    match _tpose_file_entry self with
    | None =>
        metadata_entry ← try_find_anim_metadata_for_entry self anim_entry;
        if bool_decide (metadata_entry = _tpose_metadata self)
        then Ok (Some anim_entry)
        else Ok None
    | Some e => Ok (Some e)
    end;
  let metadata_group :=
    AnimMetadataGroup.mk
      (AnimMetadataGroup.group metadata_group)
      (AnimMetadataGroup.entries metadata_group ++ [anim_entry]) in
  Ok {| _group_map := ODict.set group metadata_group group_map;
        _anim_metadata_list := _anim_metadata_list self;
        _tpose_metadata := _tpose_metadata self;
        _tpose_file_entry := tpose_file_entry |}.

(** [get_group_names(self)] *)
Definition get_group_names (self : t) : list string :=
  ODict.keys (_group_map self).

(** [get_anim_file_entries_for_group(self, group)] *)
Definition get_anim_file_entries_for_group (self : t) (group : string)
    : list AnimFileEntry :=
  match ODict.get group (_group_map self) with
  | None => []
  | Some metadata_group => AnimMetadataGroup.entries metadata_group
  end.

(** [get_tpose_anim_metadata_entry(self)] *)
Definition get_tpose_anim_metadata_entry (self : t)
    : option AnimFileEntryMetadata :=
  _tpose_metadata self.

(** [get_tpose_anim_file_entry(self)] *)
Definition get_tpose_anim_file_entry (self : t) : option AnimFileEntry :=
  _tpose_file_entry self.

(** A sequence of [add_to_group] calls, in order. *)
Fixpoint add_all (self : t) (calls : list (string * AnimFileEntry))
    : result t :=
  match calls with
  | [] => Ok self
  | (group, anim_entry) :: rest =>
      self ← add_to_group self group anim_entry;
      add_all self rest
  end.

End AnimMetadataOrganizer.

(* ===================================================================== *)
(** ** __init__.py *)
(* ===================================================================== *)

(** The character class [a-zA-Z0-9_-]. *)
Definition in_filename_class (c : ascii) : bool :=
  let n := nat_of_ascii c in
  (Nat.leb 97 n && Nat.leb n 122)
  || (Nat.leb 65 n && Nat.leb n 90)
  || (Nat.leb 48 n && Nat.leb n 57)
  || Ascii.eqb c "_"%char
  || Ascii.eqb c "-"%char.

(** [clean_group_name_to_be_filename(string)]:
    [re.sub(r'[^a-zA-Z0-9_-]', '', string)] drops each character that
    matches the negated class. *)
Fixpoint clean_group_name_to_be_filename (s : string) : string :=
  match s with
  | EmptyString => EmptyString
  | String c r =>
      if negb (in_filename_class c) then clean_group_name_to_be_filename r
      else String c (clean_group_name_to_be_filename r)
  end.

(** *** SCENE_OP_retarget_batcher.execute *)

(** Calls into the host application and the rigging add-on, in the
    order the operator issues them. *)
Inductive event : Type :=
| SetAnimConfigCsv (path : string)
| Report (type : list string) (message : option string)
| ImportSceneFbx (filepath : string)
| SetTargetAndSourceRig (name : string)
| ArpBuildBonesList
| ArpImportConfig (filepath : string)
| DeleteAllNlaTracksOnArmature
| PushFbxAnimationToTargetRigNlaTrack (fbx_abs_path anim_name : string)
| ExportSceneGltf (filepath : string)
| OrphansPurge.

Global Instance event_eq_dec : EqDecision event.
Proof. solve_decision. Defined.

Inductive status : Type := FINISHED | CANCELLED.

(** What the operator reads from the scene, the file system and the
    host while it runs. *)
Record Host : Type := mkHost {
  base_module_path : string;
  fix_synty_with_arp_anim_config_csv : string;
  fix_synty_with_arp_ignore_root_motion : bool;
  fix_synty_with_arp_import_path : string;
  fix_synty_with_arp_export_path : string;
  (** [os.path.exists] *)
  path_exists : string -> bool;
  (** [os.listdir] and [os.path.isdir] below the import path *)
  import_contents : list fs_node;
  (** [os.path.relpath] *)
  relpath : string -> string -> string;
  (** the CSV files that can be opened *)
  files : gmap string (list (list string));
  (** [scene.objects.get(scene.target_rig)] *)
  target_rig : option string;
  (** [len(scene.objects)] *)
  scene_objects_len : nat;
  (** [context.active_object] after the t-pose import *)
  active_object : option string;
  (** [len(bpy.context.scene.bones_map_v2)] when it is read *)
  bones_map_v2_len : nat
}.

Module SCENE_OP_retarget_batcher.
Import PyStr.

(** Lines 87-92: pair each crawled entry with its metadata row and
    file it under the row's group. *)
Fixpoint organize_entries (anim_metadata_organizer : AnimMetadataOrganizer.t)
    (anim_entries : list AnimFileEntry) : result AnimMetadataOrganizer.t :=
  match anim_entries with
  | [] => Ok anim_metadata_organizer
  | anim_entry :: rest =>
      anim_metadata_entry ←
        AnimMetadataOrganizer.try_find_anim_metadata_for_entry
          anim_metadata_organizer anim_entry;
      match anim_metadata_entry with
      | Some anim_metadata_entry =>
          let anim_entry :=
            mkEntry (full_path anim_entry) (relative_path anim_entry)
                    (base_name anim_entry) (loop anim_metadata_entry) in
          anim_metadata_organizer ←
            AnimMetadataOrganizer.add_to_group anim_metadata_organizer
              (group anim_metadata_entry) anim_entry;
          organize_entries anim_metadata_organizer rest
      | None => organize_entries anim_metadata_organizer rest
      end
  end.

(** Lines 139-142: the name of the NLA track. *)
Definition anim_name_of (anim_file_entry : AnimFileEntry) : string :=
  let base_file_name :=
    OsPath.splitext_root (OsPath.basename (full_path anim_file_entry)) in
  let anim_name := base_file_name in
  if should_loop anim_file_entry && negb (endswith anim_name "-loop")
  then anim_name ++ "-loop"
  else anim_name.

(** Lines 138-143: the inner loop, [trace] being the calls issued so
    far. *)
Fixpoint push_entries (group_file_entries : list AnimFileEntry)
    (trace : list event) : list event :=
  match group_file_entries with
  | [] => trace
  | anim_file_entry :: rest =>
      push_entries rest
        (trace ++ [PushFbxAnimationToTargetRigNlaTrack
                     (full_path anim_file_entry)
                     (anim_name_of anim_file_entry)])
  end.

(** Lines 145-147 *)
Definition full_export_path (export_path group : string) : string :=
  let sanitized_group_name := clean_group_name_to_be_filename group in
  OsPath.join export_path (sanitized_group_name ++ ".glb").

(** Lines 130-158: the loop over the group names. *)
Fixpoint export_groups (anim_metadata_organizer : AnimMetadataOrganizer.t)
    (export_path : string) (groups : list string) (trace : list event)
    : list event :=
  match groups with
  | [] => trace
  | group :: rest =>
      let group_file_entries :=
        AnimMetadataOrganizer.get_anim_file_entries_for_group
          anim_metadata_organizer group in
      let trace := trace ++ [DeleteAllNlaTracksOnArmature] in
      let trace := push_entries group_file_entries trace in
      let trace :=
        trace ++ [ExportSceneGltf (full_export_path export_path group)] in
      let trace := trace ++ [OrphansPurge] in
      export_groups anim_metadata_organizer export_path rest trace
  end.

(** Lines 70-92: crawl, load, organize.  (The local [tpose_metadata]
    of lines 77-82 is not read afterwards.) *)
Definition crawl_and_organize (h : Host) : result AnimMetadataOrganizer.t :=
  let anim_crawler :=
    AnimFileCrawler.init (fix_synty_with_arp_import_path h) in
  let anim_entries :=
    AnimFileCrawler.crawl_folders_for_anims (relpath h) anim_crawler
      (AnimFileCrawler.root_path anim_crawler) (import_contents h) [] in
  anim_metadata_list ←
    AnimFileEntryMetadataProcessor.load_metadata_list (files h)
      (fix_synty_with_arp_anim_config_csv h)
      (fix_synty_with_arp_ignore_root_motion h);
  let anim_metadata_organizer :=
    AnimMetadataOrganizer.set_anim_metadata_list
      AnimMetadataOrganizer.init anim_metadata_list in
  organize_entries anim_metadata_organizer anim_entries.

(** Lines 94-119: the target rig, loaded from the t-pose file when
    the scene is empty.  The result is the rig found, if any. *)
Definition find_target_rig (h : Host)
    (anim_metadata_organizer : AnimMetadataOrganizer.t)
    : list event * result (option string) :=
  match target_rig h with
  | Some rig => ([], Ok (Some rig))
  | None =>
      if Nat.eqb (scene_objects_len h) 0 then
        match AnimMetadataOrganizer.get_tpose_anim_file_entry
                anim_metadata_organizer with
        | Some tpose_file_entry =>
            let imported := [ImportSceneFbx (full_path tpose_file_entry)] in
            match active_object h with
            | None => (imported, Raise (AttributeError "name"))
            | Some name =>
                let synty_bonemap_path :=
                  OsPath.join (base_module_path h)
                              "synty_remap_preset.bmap" in
                (imported ++ [SetTargetAndSourceRig name;
                              ArpBuildBonesList;
                              ArpImportConfig synty_bonemap_path],
                 Ok (Some name))
            end
        | None => ([], Ok None)
        end
      else ([], Ok None)
  end.

(** [execute(self, context)]: the calls issued and the value
    returned, or the exception that ends the run. *)
Definition execute (h : Host) : list event * result status :=
  let anim_config_csv_path := fix_synty_with_arp_anim_config_csv h in
  if String.eqb anim_config_csv_path "" then
    ([SetAnimConfigCsv
        (OsPath.join (base_module_path h) "synty_anim_metadata.csv");
      Report ["INFO";
              "Anim Config not set. Default one has been suggested."]
             None],
     Ok CANCELLED)
  else if negb (path_exists h anim_config_csv_path) then
    ([Report ["ERROR"] (Some "Anim Config CSV path not specified.")],
     Ok CANCELLED)
  else if negb (path_exists h (fix_synty_with_arp_import_path h)) then
    ([Report ["ERROR"] (Some "Import path not specified.")], Ok CANCELLED)
  else if negb (path_exists h (fix_synty_with_arp_export_path h)) then
    ([Report ["ERROR"] (Some "Export path not specified.")], Ok CANCELLED)
  else
    match crawl_and_organize h with
    | Raise e => ([], Raise e)
    | Ok anim_metadata_organizer =>
        match find_target_rig h anim_metadata_organizer with
        | (trace, Raise e) => (trace, Raise e)
        | (trace, Ok None) =>
            (trace ++
               [Report ["ERROR"]
                  (Some "Auto-Rig Pro Remap target armature not set.")],
             Ok CANCELLED)
        | (trace, Ok (Some _)) =>
            if Nat.eqb (bones_map_v2_len h) 0 then
              (trace ++
                 [Report ["ERROR"]
                    (Some "Auto-Rig Pro Remap bone map is not configured.")],
               Ok CANCELLED)
            else
              let trace :=
                export_groups anim_metadata_organizer
                  (fix_synty_with_arp_export_path h)
                  (AnimMetadataOrganizer.get_group_names
                     anim_metadata_organizer)
                  trace in
              (trace ++ [Report ["INFO"] (Some "Exports finished.")],
               Ok FINISHED)
        end
    end.

End SCENE_OP_retarget_batcher.

(* ===================================================================== *)
(** ** Vocabulary of the specification *)
(* ===================================================================== *)

(** [needle] occurs in [hay] as a contiguous run of characters. *)
Definition contains (needle hay : string) : Prop :=
  exists pre suf : string, hay = (pre ++ needle ++ suf)%string.

(** [s] ends with [suf]. *)
Definition has_suffix (suf s : string) : Prop :=
  exists pre : string, s = (pre ++ suf)%string.

(** ASCII letters, digits, underscore and hyphen. *)
Definition is_ascii_letter (c : ascii) : Prop :=
  let n := nat_of_ascii c in (65 <= n <= 90) \/ (97 <= n <= 122).

Definition is_ascii_digit (c : ascii) : Prop :=
  let n := nat_of_ascii c in 48 <= n <= 57.

Definition filename_safe (c : ascii) : Prop :=
  is_ascii_letter c \/ is_ascii_digit c \/ c = "_"%char \/ c = "-"%char.

(** A name as a directory listing gives it: without separator. *)
Definition name_ok (name : string) : bool :=
  negb (PyStr.str_in "/" name).

Fixpoint node_names_ok (node : fs_node) : bool :=
  match node with
  | FsFile name => name_ok name
  | FsDir name children => name_ok name && forallb node_names_ok children
  end.

(** The plain files below a node, each with the path of the folder it
    sits in, sub-directories entered where they are listed. *)
Fixpoint files_of_node (folder_path : string) (node : fs_node)
    : list (string * string) :=
  match node with
  | FsFile name => [(folder_path, name)]
  | FsDir name children =>
      flat_map (files_of_node (OsPath.join folder_path name)) children
  end.

Definition files_below (folder_path : string) (contents : list fs_node)
    : list (string * string) :=
  flat_map (files_of_node folder_path) contents.

(** [file_in folder contents (d, f)]: the plain file [f] sits in the
    directory of path [d], which is [folder] or lies below it at any
    depth. *)
Inductive file_in : string -> list fs_node -> string * string -> Prop :=
| file_here folder contents name :
    In (FsFile name) contents ->
    file_in folder contents (folder, name)
| file_deeper folder contents name children df :
    In (FsDir name children) contents ->
    file_in (OsPath.join folder name) children df ->
    file_in folder contents df.

(** The files the crawler is meant to keep: the lowercased name ends
    with [.fbx], contains [filename_must_have] when that is set, and
    does not contain [filename_must_not_have] when that is set, both
    compared in lower case. *)
Definition wanted (self : AnimFileCrawler.t) (name : string) : bool :=
  PyStr.endswith (PyStr.lower name) ".fbx"
  && match AnimFileCrawler.filename_must_have self with
     | Some s => PyStr.str_in (PyStr.lower s) (PyStr.lower name)
     | None => true
     end
  && match AnimFileCrawler.filename_must_not_have self with
     | Some s => negb (PyStr.str_in (PyStr.lower s) (PyStr.lower name))
     | None => true
     end.

(** The same, in the words of the specification. *)
Definition is_wanted (self : AnimFileCrawler.t) (name : string) : Prop :=
  has_suffix ".fbx" (PyStr.lower name)
  /\ (forall s, AnimFileCrawler.filename_must_have self = Some s ->
                contains (PyStr.lower s) (PyStr.lower name))
  /\ (forall s, AnimFileCrawler.filename_must_not_have self = Some s ->
                ~ contains (PyStr.lower s) (PyStr.lower name)).

(** The entry the crawler is meant to append for the file [name] of
    the folder [folder_path]. *)
Definition entry_for (relpath : string -> string -> string)
    (self : AnimFileCrawler.t) (df : string * string) : AnimFileEntry :=
  let path := OsPath.join (fst df) (snd df) in
  mkEntry path
          (relpath path (AnimFileCrawler.root_path self))
          (snd df)
          (AnimFileCrawler.should_loop path).

(** The entries the crawler builds for the wanted files among
    [files], in their order. *)
Definition kept_entries (relpath : string -> string -> string)
    (self : AnimFileCrawler.t) (files : list (string * string))
    : list AnimFileEntry :=
  map (fun df => AnimFileCrawler.make_entry relpath self
                   (OsPath.join (fst df) (snd df)))
      (List.filter (fun df => wanted self (snd df)) files).



(** The rows [load_metadata_list] keeps. *)
Definition kept_row (ignore_root_motion : bool) (m : AnimFileEntryMetadata)
    : bool :=
  negb ignore_root_motion || negb (root_motion m).

(** [m] is the first row of [metadata_list] whose filename is the base
    name of [anim_entry]. *)
Definition first_match (metadata_list : list AnimFileEntryMetadata)
    (anim_entry : AnimFileEntry) (m : AnimFileEntryMetadata) : Prop :=
  exists before after,
    metadata_list = before ++ m :: after
    /\ filename m = base_name anim_entry
    /\ Forall (fun x => filename x <> base_name anim_entry) before.



(** The entries added under [group] by a sequence of [add_to_group]
    calls, in the order of the calls. *)
Definition added_under (calls : list (string * AnimFileEntry))
    (group : string) : list AnimFileEntry :=
  map snd (List.filter (fun call => String.eqb (fst call) group) calls).

(** The t-pose file a sequence of calls settles on: the first entry
    added whose metadata row compares equal to the t-pose row. *)
Definition first_tpose_candidate
    (anim_metadata_list : list AnimFileEntryMetadata)
    (calls : list (string * AnimFileEntry)) : option AnimFileEntry :=
  List.find
    (fun e => bool_decide
                (AnimMetadataOrganizer.find_metadata anim_metadata_list e
                 = AnimMetadataOrganizer.find_tpose anim_metadata_list))
    (map snd calls).

(** [t] is the first row of the list whose tags are ['tpose']. *)
Definition first_tpose_row (anim_metadata_list : list AnimFileEntryMetadata)
    (t : AnimFileEntryMetadata) : Prop :=
  exists before after,
    anim_metadata_list = before ++ t :: after
    /\ tags t = "tpose"
    /\ Forall (fun x => tags x <> "tpose") before.

(** The t-pose file entry after one call of [add_to_group]. *)
Definition tpose_after (self : AnimMetadataOrganizer.t)
    (l : list AnimFileEntryMetadata) (e : AnimFileEntry)
    : option AnimFileEntry :=
  match AnimMetadataOrganizer._tpose_file_entry self with
  | Some x => Some x
  | None =>
      if bool_decide (AnimMetadataOrganizer.find_metadata l e
                      = AnimMetadataOrganizer._tpose_metadata self)
      then Some e else None
  end.

(** The group dict after one call of [add_to_group]. *)
Definition group_map_after (self : AnimMetadataOrganizer.t)
    (g : string) (e : AnimFileEntry) : list (string * AnimMetadataGroup.t) :=
  match ODict.get g (AnimMetadataOrganizer._group_map self) with
  | None =>
      ODict.set g (AnimMetadataGroup.mk g ([] ++ [e]))
        (ODict.set g (AnimMetadataGroup.mk g [])
           (AnimMetadataOrganizer._group_map self))
  | Some mg =>
      ODict.set g
        (AnimMetadataGroup.mk (AnimMetadataGroup.group mg)
           (AnimMetadataGroup.entries mg ++ [e]))
        (AnimMetadataOrganizer._group_map self)
  end.

(** *** The operator sequence *)

(** The entry as the operator files it: [should_loop] taken from the
    metadata row. *)
Definition with_loop (e : AnimFileEntry) (m : AnimFileEntryMetadata)
    : AnimFileEntry :=
  mkEntry (full_path e) (relative_path e) (base_name e) (loop m).

(** The [add_to_group] calls the operator makes for the crawled
    entries: one for each entry that has a metadata row. *)
Definition matched_calls (anim_metadata_list : list AnimFileEntryMetadata)
    (anim_entries : list AnimFileEntry) : list (string * AnimFileEntry) :=
  flat_map
    (fun e =>
       match AnimMetadataOrganizer.find_metadata anim_metadata_list e with
       | Some m => [(group m, with_loop e m)]
       | None => []
       end)
    anim_entries.

(** The import and retarget of one animation file. *)
Definition push_event (e : AnimFileEntry) : event :=
  PushFbxAnimationToTargetRigNlaTrack
    (full_path e) (SCENE_OP_retarget_batcher.anim_name_of e).

(** What the operator does for one group: clear the NLA tracks, push
    each file of the group, export once, purge. *)
Definition group_block (org : AnimMetadataOrganizer.t) (export_path : string)
    (group : string) : list event :=
  [DeleteAllNlaTracksOnArmature]
  ++ map push_event
         (AnimMetadataOrganizer.get_anim_file_entries_for_group org group)
  ++ [ExportSceneGltf
        (SCENE_OP_retarget_batcher.full_export_path export_path group);
      OrphansPurge].

(** The calls that load the target rig from the t-pose file. *)
Definition is_setup_event (ev : event) : bool :=
  match ev with
  | ImportSceneFbx _ | SetTargetAndSourceRig _
  | ArpBuildBonesList | ArpImportConfig _ => true
  | _ => false
  end.

(** The entries the operator crawls. *)
Definition crawled_entries (h : Host) : list AnimFileEntry :=
  AnimFileCrawler.crawl_folders_for_anims (relpath h)
    (AnimFileCrawler.init (fix_synty_with_arp_import_path h))
    (fix_synty_with_arp_import_path h) (import_contents h) [].

(* ===================================================================== *)
(** ** Sample inputs *)
(* ===================================================================== *)

Module Sample.

(** A [relpath] for paths that lie below [start]. *)
Definition below (path start : string) : string :=
  PyStr.slice_from (String.length start + 1) path.

Definition tree : list fs_node :=
  [FsFile "A_Walk.FBX";
   FsDir "sub" [FsFile "Idle_To_Walk.fbx"; FsFile "note.txt";
                FsDir "deep" [FsFile "Jump.fbx"]];
   FsFile "T.fbx"].

Definition table : list (list string) :=
  [["filename"; "group"; "loop"; "root_motion"; "tags"; "orig_path"];
   ["A_Walk.FBX"; "loco"; "TRUE"; "FALSE"; ""; "x"];
   [];
   ["T.fbx"; "base"; "true"; "FALSE"; "tpose"; "y"];
   ["Jump.fbx"; "air/jump"; "FALSE"; "TRUE"; ""; "z"; "extra"]].

Definition walk_row : AnimFileEntryMetadata :=
  mkMetadata "A_Walk.FBX" "loco" true false "" "x".

Definition tpose_row : AnimFileEntryMetadata :=
  mkMetadata "T.fbx" "base" false false "tpose" "y".

Definition jump_row : AnimFileEntryMetadata :=
  mkMetadata "Jump.fbx" "air/jump" false true "" "z".

Definition metadata_list : list AnimFileEntryMetadata :=
  [walk_row; tpose_row; jump_row].

Definition walk_entry : AnimFileEntry :=
  mkEntry "/r/A_Walk.FBX" "A_Walk.FBX" "A_Walk.FBX" true.

Definition stray_entry : AnimFileEntry :=
  mkEntry "/r/stray.fbx" "stray.fbx" "stray.fbx" false.

Definition store : gmap string (list (list string)) :=
  {["/cfg/m.csv" := table]}.

Definition host : Host :=
  {| base_module_path := "/mod";
     fix_synty_with_arp_anim_config_csv := "/cfg/m.csv";
     fix_synty_with_arp_ignore_root_motion := false;
     fix_synty_with_arp_import_path := "/r";
     fix_synty_with_arp_export_path := "/out";
     path_exists := fun _ => true;
     import_contents := tree;
     relpath := below;
     files := store;
     target_rig := None;
     scene_objects_len := 0;
     active_object := Some "Armature";
     bones_map_v2_len := 3 |}.


(** A crawler that keeps the walks and leaves the transitions. *)
Definition walk_crawler : AnimFileCrawler.t :=
  AnimFileCrawler.mk "/r" false (Some "WALK") (Some "to").

(** The calls [execute] issues on [host]. *)
Definition trace : list event :=
  [ImportSceneFbx "/r/T.fbx"; SetTargetAndSourceRig "Armature";
   ArpBuildBonesList; ArpImportConfig "/mod/synty_remap_preset.bmap";
   DeleteAllNlaTracksOnArmature;
   PushFbxAnimationToTargetRigNlaTrack "/r/A_Walk.FBX" "A_Walk-loop";
   ExportSceneGltf "/out/loco.glb"; OrphansPurge;
   DeleteAllNlaTracksOnArmature;
   PushFbxAnimationToTargetRigNlaTrack "/r/sub/deep/Jump.fbx" "Jump";
   ExportSceneGltf "/out/airjump.glb"; OrphansPurge;
   DeleteAllNlaTracksOnArmature;
   PushFbxAnimationToTargetRigNlaTrack "/r/T.fbx" "T";
   ExportSceneGltf "/out/base.glb"; OrphansPurge;
   Report ["INFO"] (Some "Exports finished.")].

End Sample.

(* ===================================================================== *)
(** ** __init__.py: register and unregister *)
(* ===================================================================== *)








(* ===================================================================== *)
(** ** Further vocabulary *)
(* ===================================================================== *)

(** The names of a list, each at its first occurrence. *)
Fixpoint first_occurrences (names : list string) : list string :=
  match names with
  | [] => []
  | x :: rest =>
      x :: List.filter (fun y => negb (String.eqb y x))
                       (first_occurrences rest)
  end.

(** A call on an organizer. *)
Inductive organizer_call : Type :=
| SetAnimMetadataList (anim_metadata_list : list AnimFileEntryMetadata)
| AddToGroup (group : string) (anim_entry : AnimFileEntry).

(** A sequence of calls on an organizer, in order. *)
Fixpoint run_calls (self : AnimMetadataOrganizer.t)
    (calls : list organizer_call) : result AnimMetadataOrganizer.t :=
  match calls with
  | [] => Ok self
  | SetAnimMetadataList l :: rest =>
      run_calls (AnimMetadataOrganizer.set_anim_metadata_list self l) rest
  | AddToGroup g e :: rest =>
      self ← AnimMetadataOrganizer.add_to_group self g e;
      run_calls self rest
  end.

(** The rows of a table turned into metadata items, up to the first
    row that lacks a column. *)
Fixpoint parse_rows (rows : list (gmap string string))
    : result (list AnimFileEntryMetadata) :=
  match rows with
  | [] => Ok []
  | row :: rest =>
      m ← AnimFileEntryMetadataProcessor.metadata_of_row row;
      ms ← parse_rows rest;
      Ok (m :: ms)
  end.

(** The first of the six columns, in the order the loader reads them,
    that a header lacks. *)
Definition first_missing_column (header : list string) : option string :=
  List.find (fun key => negb (bool_decide (key ∈ header)))
            AnimFileEntryMetadataProcessor.fieldnames.


Definition is_push_event (ev : event) : bool :=
  match ev with
  | PushFbxAnimationToTargetRigNlaTrack _ _ => true
  | _ => false
  end.

Definition is_export_event (ev : event) : bool :=
  match ev with
  | ExportSceneGltf _ => true
  | _ => false
  end.

(** The folder path as [os.path.join] extends it: with a separator at
    its end unless it is empty. *)
Definition with_sep (folder_path : string) : string :=
  if String.eqb folder_path "" || PyStr.endswith folder_path "/"
  then folder_path
  else (folder_path ++ "/")%string.

(** A tree as a file system holds it: names without separator and not
    empty, and no two entries of a directory with the same name. *)
Definition node_name (node : fs_node) : string :=
  match node with
  | FsFile name => name
  | FsDir name _ => name
  end.

Fixpoint node_wf (node : fs_node) : Prop :=
  name_ok (node_name node) = true
  /\ node_name node <> ""
  /\ match node with
     | FsFile _ => True
     | FsDir _ children =>
         List.NoDup (map node_name children)
         /\ (fix all (l : list fs_node) : Prop :=
               match l with
               | [] => True
               | c :: l' => node_wf c /\ all l'
               end) children
     end.

Definition listing_wf (contents : list fs_node) : Prop :=
  List.NoDup (map node_name contents) /\ Forall node_wf contents.

(** More sample inputs. *)
Module Sample2.


(** A table that has no [group] column. *)
Definition table_without_group : list (list string) :=
  [["filename"; "loop"; "root_motion"; "tags"; "orig_path"];
   [];
   ["A_Walk.FBX"; "TRUE"; "FALSE"; ""; "x"]].


Definition looping_entry : AnimFileEntry :=
  mkEntry "/r/A_Walk-loop.fbx" "A_Walk-loop.fbx" "A_Walk-loop.fbx" true.

End Sample2.

(** The full paths of the plain files below a node. *)
Definition paths_of_node (folder_path : string) (node : fs_node)
    : list string :=
  map (fun df => OsPath.join (fst df) (snd df))
      (files_of_node folder_path node).

(** More sample inputs: a tree in which two folders hold a file of the
    same name. *)
Module Sample3.

Definition tree : list fs_node :=
  [FsDir "a" [FsFile "Walk.fbx"; FsDir "b" [FsFile "Walk.fbx"]];
   FsFile "Walk.fbx";
   FsDir "ab" [FsFile "Walk.fbx"]].

End Sample3.

(** More sample values for the operator and the organizer. *)
Module Sample4.

(** The organizer the operator builds on the sample host. *)
Definition organized : AnimMetadataOrganizer.t :=
  Eval vm_compute in
    match SCENE_OP_retarget_batcher.crawl_and_organize Sample.host with
    | Ok org => org
    | Raise _ => AnimMetadataOrganizer.init
    end.

(** An organizer that holds a t-pose file and nothing else. *)
Definition with_tpose_file : AnimMetadataOrganizer.t :=
  AnimMetadataOrganizer.mk [] None None (Some Sample.walk_entry).

Definition calls : list organizer_call :=
  [AddToGroup "g" Sample.stray_entry;
   SetAnimMetadataList [Sample.tpose_row];
   AddToGroup "base" (mkEntry "/r/T.fbx" "T.fbx" "T.fbx" false)].


End Sample4.

(* ===================================================================== *)
(** * Properties *)
(* ===================================================================== *)

(** ** Strings *)

Lemma startswith_spec (s p : string) :
  PyStr.startswith s p = true <-> exists suf, s = (p ++ suf)%string.
Proof.
  revert s. induction p as [|b p IH]; intros s; simpl.
  - split; [intros _; exists s; reflexivity | intros _; destruct s; reflexivity].
  - destruct s as [|a s].
    + split; [discriminate | intros [suf H]; discriminate].
    + simpl. rewrite andb_true_iff, IH. split.
      * intros [Hab [suf ->]]. apply Ascii.eqb_eq in Hab as ->.
        exists suf. reflexivity.
      * intros [suf H]. injection H as -> ->. split.
        -- apply Ascii.eqb_refl.
        -- exists suf. reflexivity.
Qed.

Lemma str_in_spec (needle hay : string) :
  PyStr.str_in needle hay = true <-> contains needle hay.
Proof.
  unfold contains. induction hay as [|c hay IH].
  - cbn [PyStr.str_in]. rewrite orb_false_r, startswith_spec. split.
    + intros [suf H]. exists ""%string, suf. exact H.
    + intros [pre [suf H]]. destruct pre; [exists suf; exact H |discriminate].
  - cbn [PyStr.str_in]. rewrite orb_true_iff, startswith_spec, IH. split.
    + intros [[suf H] | [pre [suf H]]].
      * exists ""%string, suf. exact H.
      * exists (String c pre), suf. simpl. rewrite H. reflexivity.
    + intros [pre [suf H]]. destruct pre as [|a pre].
      * left. exists suf. exact H.
      * right. simpl in H. injection H as -> ->. exists pre, suf. reflexivity.
Qed.

Lemma endswith_spec (s suf : string) :
  PyStr.endswith s suf = true <-> has_suffix suf s.
Proof.
  unfold has_suffix. induction s as [|c s IH]; cbn [PyStr.endswith].
  - rewrite orb_false_r, String.eqb_eq. split.
    + intros <-. exists ""%string. reflexivity.
    + intros [pre H]. destruct pre; [exact H | discriminate].
  - rewrite orb_true_iff, String.eqb_eq, IH. split.
    + intros [<- | [pre ->]].
      * exists ""%string. reflexivity.
      * exists (String c pre). reflexivity.
    + intros [pre H]. destruct pre as [|a pre].
      * left. exact H.
      * right. simpl in H. injection H as -> ->. exists pre. reflexivity.
Qed.

Lemma str_in_false_startswith (needle s : string) :
  PyStr.str_in needle s = false -> PyStr.startswith s needle = false.
Proof.
  destruct s; cbn [PyStr.str_in]; intros H; apply orb_false_iff in H; tauto.
Qed.

Lemma str_in_false_tail (needle : string) (c : ascii) (s : string) :
  PyStr.str_in needle (String c s) = false -> PyStr.str_in needle s = false.
Proof.
  cbn [PyStr.str_in]. intros H. apply orb_false_iff in H. tauto.
Qed.

(** ** Paths *)

Lemma append_cons (x : ascii) (d s : string) :
  (String x d ++ s)%string = String x (d ++ s).
Proof. reflexivity. Qed.

Lemma append_nil_l (s : string) : ("" ++ s)%string = s.
Proof. reflexivity. Qed.

Lemma append_assoc (a b c : string) :
  ((a ++ b) ++ c)%string = (a ++ (b ++ c))%string.
Proof.
  induction a as [|x a IH]; [reflexivity|].
  rewrite !append_cons, IH. reflexivity.
Qed.

Lemma rfind_absent (s : string) :
  PyStr.str_in "/" s = false -> PyStr.rfind OsPath.sep s = (-1)%Z.
Proof.
  induction s as [|x s IH]; intros H; [reflexivity|].
  pose proof (str_in_false_startswith _ _ H) as Hx.
  apply str_in_false_tail in H. cbn [PyStr.rfind]. rewrite (IH H).
  simpl in Hx. destruct s; simpl in Hx.
  - rewrite andb_true_r in Hx. simpl. unfold OsPath.sep. rewrite Hx. reflexivity.
  - rewrite andb_true_r in Hx. simpl. unfold OsPath.sep. rewrite Hx. reflexivity.
Qed.

Lemma rfind_after_sep (d f : string) :
  PyStr.rfind OsPath.sep f = (-1)%Z ->
  PyStr.rfind OsPath.sep (d ++ String OsPath.sep f)
  = Z.of_nat (String.length d).
Proof.
  intros Hf. induction d as [|x d IH].
  - rewrite append_nil_l. cbn [PyStr.rfind String.length]. rewrite Hf.
    simpl. unfold OsPath.sep. reflexivity.
  - rewrite append_cons. cbn [PyStr.rfind String.length]. rewrite IH.
    destruct (Z.leb_spec 0 (Z.of_nat (String.length d))); lia.
Qed.

Lemma slice_from_app (d s : string) :
  PyStr.slice_from (String.length d) (d ++ s) = s.
Proof.
  induction d as [|x d IH]; [destruct s; reflexivity |].
  rewrite append_cons. exact IH.
Qed.

Lemma basename_after_sep (d f : string) :
  PyStr.str_in "/" f = false ->
  OsPath.basename (d ++ String OsPath.sep f) = f.
Proof.
  intros Hf. unfold OsPath.basename.
  rewrite (rfind_after_sep d f (rfind_absent f Hf)).
  replace (Z.to_nat (Z.of_nat (String.length d) + 1))
    with (String.length (d ++ String OsPath.sep "")).
  - replace (d ++ String OsPath.sep f)%string
      with ((d ++ String OsPath.sep "") ++ f)%string.
    + apply slice_from_app.
    + rewrite append_assoc. reflexivity.
  - clear. induction d as [|x d IH]; [reflexivity|].
    rewrite append_cons. cbn [String.length]. rewrite IH. lia.
Qed.

Lemma basename_no_sep (f : string) :
  PyStr.str_in "/" f = false -> OsPath.basename f = f.
Proof.
  intros Hf. unfold OsPath.basename. rewrite (rfind_absent f Hf).
  destruct f; reflexivity.
Qed.

(** The base name of a listed name joined to its folder is the name. *)
Lemma basename_join (folder name : string) :
  name_ok name = true -> OsPath.basename (OsPath.join folder name) = name.
Proof.
  unfold name_ok. rewrite negb_true_iff. intros Hf. unfold OsPath.join.
  rewrite (str_in_false_startswith _ _ Hf).
  destruct (String.eqb folder "") eqn:He.
  - apply String.eqb_eq in He as ->. simpl. apply basename_no_sep, Hf.
  - cbn [orb]. destruct (PyStr.endswith folder "/") eqn:Hs.
    + apply endswith_spec in Hs as [pre ->].
      rewrite append_assoc. apply (basename_after_sep pre name Hf).
    + apply (basename_after_sep folder name Hf).
Qed.

(** ** Loop inference *)

Ltac case_str_in :=
  match goal with
  | |- context [PyStr.str_in ?n ?b] =>
      let E := fresh "E" in
      destruct (PyStr.str_in n b) eqn:E;
      [apply str_in_spec in E
      | apply not_true_iff_false in E; rewrite str_in_spec in E]
  end.

(** C3.  For every file path, with [b] the lowercased base name:
    [should_loop] is [False] when [b] contains ["_to_"] or ["jump"];
    otherwise it is [True] exactly when [b] contains one of ["walk"],
    ["sprint"], ["shuffle"], ["turn"], ["idle"]. *)
Theorem should_loop_rule (filepath : string) :
  let b := PyStr.lower (OsPath.basename filepath) in
  ((contains "_to_" b \/ contains "jump" b) ->
     AnimFileCrawler.should_loop filepath = false)
  /\ (~ (contains "_to_" b \/ contains "jump" b) ->
        (AnimFileCrawler.should_loop filepath = true <->
           contains "walk" b \/ contains "sprint" b \/ contains "shuffle" b
           \/ contains "turn" b \/ contains "idle" b)).
Proof.
  intros b. unfold AnimFileCrawler.should_loop. fold b.
  split.
  - intros H. repeat (case_str_in; try reflexivity); tauto.
  - intros H. repeat (case_str_in; try tauto);
      split; intros; try tauto; discriminate.
Qed.

(** ** Export-filename sanitization *)

Lemma in_filename_class_spec (c : ascii) :
  in_filename_class c = true <-> filename_safe c.
Proof.
  unfold in_filename_class, filename_safe, is_ascii_letter, is_ascii_digit.
  cbv zeta.
  rewrite !orb_true_iff, !andb_true_iff, !Nat.leb_le, !Ascii.eqb_eq.
  tauto.
Qed.

Lemma clean_chars (s : string) :
  list_ascii_of_string (clean_group_name_to_be_filename s)
  = List.filter in_filename_class (list_ascii_of_string s).
Proof.
  induction s as [|c s IH]; [reflexivity|].
  cbn [clean_group_name_to_be_filename list_ascii_of_string List.filter].
  destruct (in_filename_class c); cbn [negb list_ascii_of_string];
    rewrite IH; reflexivity.
Qed.

(** C10.  For every input string, [clean_group_name_to_be_filename]
    returns the characters of the input that are ASCII letters,
    digits, underscores or hyphens, in their order and nothing else,
    and applying it twice equals applying it once. *)
Theorem clean_group_name_safe_idempotent (s : string) :
  Forall filename_safe
         (list_ascii_of_string (clean_group_name_to_be_filename s))
  /\ list_ascii_of_string (clean_group_name_to_be_filename s)
     = List.filter in_filename_class (list_ascii_of_string s)
  /\ clean_group_name_to_be_filename (clean_group_name_to_be_filename s)
     = clean_group_name_to_be_filename s.
Proof.
  split; [|split].
  - rewrite clean_chars. apply List.Forall_forall. intros c Hc.
    apply filter_In in Hc as [_ Hc]. apply in_filename_class_spec, Hc.
  - apply clean_chars.
  - induction s as [|c s IH]; [reflexivity|].
    cbn [clean_group_name_to_be_filename].
    destruct (in_filename_class c) eqn:Hc; cbn [negb]; [|exact IH].
    cbn [clean_group_name_to_be_filename]. rewrite Hc. cbn [negb].
    rewrite IH. reflexivity.
Qed.

(** ** Crawling *)

(** Structural induction on a file tree, the children of a directory
    taken together. *)
Lemma fs_node_ind (P : fs_node -> Prop)
    (Hfile : forall name, P (FsFile name))
    (Hdir : forall name children, Forall P children -> P (FsDir name children)) :
  forall node, P node.
Proof.
  fix IH 1. intros [name | name children].
  - apply Hfile.
  - apply Hdir. induction children as [|c children IHc].
    + constructor.
    + constructor; [apply IH | apply IHc].
Qed.

Lemma include_wanted (self : AnimFileCrawler.t) (name : string) :
  PyStr.endswith (PyStr.lower name) ".fbx"
  && AnimFileCrawler.include self (PyStr.lower name)
  = wanted self name.
Proof.
  unfold wanted, AnimFileCrawler.include.
  destruct (PyStr.endswith (PyStr.lower name) ".fbx"); [|reflexivity].
  destruct (AnimFileCrawler.filename_must_have self) as [mh|];
    destruct (AnimFileCrawler.filename_must_not_have self) as [mn|];
    cbn [andb];
    repeat match goal with
           | |- context [PyStr.str_in ?a ?b] => destruct (PyStr.str_in a b)
           end; reflexivity.
Qed.

Section CrawlFacts.
Variable relpath : string -> string -> string.
Variable self : AnimFileCrawler.t.

Lemma kept_entries_app (a b : list (string * string)) :
  kept_entries relpath self (a ++ b)
  = kept_entries relpath self a ++ kept_entries relpath self b.
Proof. unfold kept_entries. rewrite List.filter_app, map_app. reflexivity. Qed.

Lemma crawl_node_dir (folder name : string) (children : list fs_node)
    (out : list AnimFileEntry) :
  AnimFileCrawler.crawl_node relpath self folder (FsDir name children) out
  = AnimFileCrawler.crawl_folders_for_anims relpath self
      (OsPath.join folder name) children out.
Proof. reflexivity. Qed.

Lemma crawl_children (folder : string) (children : list fs_node) :
  Forall (fun node => forall folder out,
            AnimFileCrawler.crawl_node relpath self folder node out
            = out ++ kept_entries relpath self (files_of_node folder node))
         children ->
  forall out,
    AnimFileCrawler.crawl_folders_for_anims relpath self folder children out
    = out ++ kept_entries relpath self (files_below folder children).
Proof.
  unfold AnimFileCrawler.crawl_folders_for_anims, files_below.
  induction 1 as [|c children Hc _ IH]; intros out.
  - simpl. unfold kept_entries. simpl. rewrite app_nil_r. reflexivity.
  - cbn [fold_left flat_map]. rewrite (Hc folder out), IH.
    rewrite kept_entries_app, <- app_assoc. reflexivity.
Qed.

Lemma crawl_node_spec (node : fs_node) :
  forall folder out,
    AnimFileCrawler.crawl_node relpath self folder node out
    = out ++ kept_entries relpath self (files_of_node folder node).
Proof.
  induction node as [name | name children IH] using fs_node_ind;
    intros folder out.
  - cbn [AnimFileCrawler.crawl_node files_of_node]. unfold kept_entries.
    cbn [List.filter snd]. rewrite <- include_wanted.
    destruct (PyStr.endswith (PyStr.lower name) ".fbx");
      [|cbn; rewrite app_nil_r; reflexivity].
    destruct (AnimFileCrawler.include self (PyStr.lower name));
      [|cbn; rewrite app_nil_r; reflexivity].
    reflexivity.
  - rewrite crawl_node_dir. apply (crawl_children _ _ IH out).
Qed.

(** The crawl, whatever the names in the tree. *)
Lemma crawl_folders_for_anims_eq (folder : string)
    (contents : list fs_node) (out : list AnimFileEntry) :
  AnimFileCrawler.crawl_folders_for_anims relpath self folder contents out
  = out ++ kept_entries relpath self (files_below folder contents).
Proof.
  apply crawl_children. apply List.Forall_forall. intros node _.
  apply crawl_node_spec.
Qed.
End CrawlFacts.

Lemma files_of_node_file_in (node : fs_node) :
  forall folder df,
    In df (files_of_node folder node) ->
    match node with
    | FsFile name => df = (folder, name)
    | FsDir name children => file_in (OsPath.join folder name) children df
    end.
Proof.
  induction node as [name | name children IH] using fs_node_ind;
    intros folder df Hin.
  - destruct Hin as [<- | []]. reflexivity.
  - cbn [files_of_node] in Hin. apply in_flat_map in Hin as [c [Hc Hdf]].
    rewrite List.Forall_forall in IH. specialize (IH c Hc _ _ Hdf).
    destruct c as [m | m ch].
    + subst df. apply file_here, Hc.
    + eapply file_deeper; [exact Hc | exact IH].
Qed.

Lemma files_below_file_in (folder : string) (contents : list fs_node)
    (df : string * string) :
  In df (files_below folder contents) <-> file_in folder contents df.
Proof.
  split.
  - unfold files_below. intros Hin.
    apply in_flat_map in Hin as [c [Hc Hdf]].
    apply files_of_node_file_in in Hdf. destruct c as [m | m ch].
    + subst df. apply file_here, Hc.
    + eapply file_deeper; [exact Hc | exact Hdf].
  - induction 1 as [folder contents name Hin
                   | folder contents name children df Hin _ IH].
    + apply in_flat_map. exists (FsFile name). split; [exact Hin | now left].
    + apply in_flat_map. exists (FsDir name children).
      split; [exact Hin | exact IH].
Qed.

Lemma files_of_node_names_ok (node : fs_node) :
  forall folder df,
    node_names_ok node = true ->
    In df (files_of_node folder node) -> name_ok (snd df) = true.
Proof.
  induction node as [name | name children IH] using fs_node_ind;
    intros folder df Hok Hin.
  - destruct Hin as [<- | []]. exact Hok.
  - cbn [files_of_node] in Hin. apply in_flat_map in Hin as [c [Hc Hdf]].
    cbn [node_names_ok] in Hok. apply andb_true_iff in Hok as [_ Hok].
    rewrite forallb_forall in Hok. rewrite List.Forall_forall in IH.
    exact (IH c Hc _ _ (Hok c Hc) Hdf).
Qed.

Lemma kept_entries_names_ok (relpath : string -> string -> string)
    (self : AnimFileCrawler.t) (files : list (string * string)) :
  (forall df, In df files -> name_ok (snd df) = true) ->
  kept_entries relpath self files
  = map (entry_for relpath self)
        (List.filter (fun df => wanted self (snd df)) files).
Proof.
  intros Hok. unfold kept_entries. apply map_ext_in. intros [d name] Hin.
  apply filter_In in Hin as [Hin _].
  unfold AnimFileCrawler.make_entry, entry_for. cbn [fst snd].
  rewrite (basename_join d name (Hok _ Hin)). reflexivity.
Qed.

Lemma wanted_spec (self : AnimFileCrawler.t) (name : string) :
  wanted self name = true <-> is_wanted self name.
Proof.
  unfold wanted, is_wanted.
  rewrite !andb_true_iff, endswith_spec.
  destruct (AnimFileCrawler.filename_must_have self) as [mh|];
    destruct (AnimFileCrawler.filename_must_not_have self) as [mn|];
    rewrite ?negb_true_iff, <- ?not_true_iff_false, ?str_in_spec;
    split.
  all: try (intros [[Hs Hh] Hn]; repeat split; try assumption;
            intros s [= <-]; assumption).
  all: try (intros [Hs [Hh Hn]]; repeat split; try assumption;
            try (apply Hh; reflexivity); try (apply Hn; reflexivity)).
  all: intros; discriminate.
Qed.

(** C2.  For every root folder whose listing names carry no separator:
    the crawl appends to [out_entries], in listing order and entering
    every sub-directory at any depth, exactly the plain files whose
    lowercased name ends with [.fbx], contains [filename_must_have]
    (when set) and does not contain [filename_must_not_have] (when
    set), both in lower case; each appended entry carries the file's
    full path, its path relative to [root_path], its base name and the
    [should_loop] inference for it. *)
Theorem crawl_folders_for_anims_spec
    (relpath : string -> string -> string) (self : AnimFileCrawler.t)
    (folder_path : string) (path_contents : list fs_node)
    (out_entries : list AnimFileEntry) :
  forallb node_names_ok path_contents = true ->
  AnimFileCrawler.crawl_folders_for_anims relpath self folder_path
    path_contents out_entries
  = out_entries
      ++ map (entry_for relpath self)
             (List.filter (fun df => wanted self (snd df))
                          (files_below folder_path path_contents))
  /\ forall entry,
       In entry (AnimFileCrawler.crawl_folders_for_anims relpath self
                   folder_path path_contents [])
       <-> exists d name,
             file_in folder_path path_contents (d, name)
             /\ is_wanted self name
             /\ entry = entry_for relpath self (d, name).
Proof.
  intros Hok.
  assert (Hnames : forall df, In df (files_below folder_path path_contents) ->
                              name_ok (snd df) = true).
  { intros df Hin. unfold files_below in Hin.
    apply in_flat_map in Hin as [c [Hc Hdf]].
    rewrite forallb_forall in Hok.
    exact (files_of_node_names_ok c _ _ (Hok c Hc) Hdf). }
  split.
  - rewrite crawl_folders_for_anims_eq, kept_entries_names_ok by exact Hnames.
    reflexivity.
  - intros entry.
    rewrite crawl_folders_for_anims_eq, kept_entries_names_ok by exact Hnames.
    cbn [app]. rewrite in_map_iff. split.
    + intros [[d name] [<- Hin]]. apply filter_In in Hin as [Hin Hw].
      exists d, name. rewrite <- files_below_file_in, <- wanted_spec. auto.
    + intros [d [name [Hin [Hw ->]]]]. exists (d, name). split; [reflexivity|].
      apply filter_In. rewrite files_below_file_in. split; [exact Hin|].
      apply wanted_spec, Hw.
Qed.

(** ** Matching entries against the metadata table *)

Lemma find_metadata_some (l : list AnimFileEntryMetadata)
    (e : AnimFileEntry) (m : AnimFileEntryMetadata) :
  AnimMetadataOrganizer.find_metadata l e = Some m <-> first_match l e m.
Proof.
  unfold first_match. induction l as [|x l IH];
    cbn [AnimMetadataOrganizer.find_metadata].
  - split; [discriminate|]. intros [b [a [H _]]]. destruct b; discriminate.
  - destruct (String.eqb (filename x) (base_name e)) eqn:Hx.
    + apply String.eqb_eq in Hx. split.
      * intros [= <-]. exists [], l. repeat split; [exact Hx | constructor].
      * intros [b [a [Hl [Hm Hb]]]]. destruct b as [|y b].
        -- injection Hl as -> _. reflexivity.
        -- injection Hl as -> _. inversion Hb; subst. contradiction.
    + apply String.eqb_neq in Hx. rewrite IH. split.
      * intros [b [a [-> [Hm Hb]]]]. exists (x :: b), a.
        repeat split; [exact Hm | constructor; assumption].
      * intros [b [a [Hl [Hm Hb]]]]. destruct b as [|y b].
        -- injection Hl as -> _. contradiction.
        -- injection Hl as -> ->. inversion Hb; subst.
           exists b, a. repeat split; assumption.
Qed.


(** The comparison is exact: a name that differs in case only is no
    match. *)
Example find_metadata_case_sensitive :
  AnimMetadataOrganizer.find_metadata
    [mkMetadata "A_Walk.fbx" "loco" true false "" ""]
    (mkEntry "/r/a_walk.fbx" "a_walk.fbx" "a_walk.fbx" true)
  = None.
Proof. reflexivity. Qed.

(** ** Loading the metadata table *)



Lemma eqb_true_iff_eq (cell : string) (b : bool) :
  b = String.eqb cell "TRUE" -> (b = true <-> cell = "TRUE").
Proof. intros ->. apply String.eqb_eq. Qed.







(** ** Saving and loading back *)







(** ** The metadata template *)

Lemma wanted_default (root : string) (name : string) :
  wanted (AnimFileCrawler.init root) name
  = PyStr.endswith (PyStr.lower name) ".fbx".
Proof. unfold wanted. cbn. rewrite !andb_true_r. reflexivity. Qed.

Lemma template_rows_cons (e : AnimFileEntry) (rest : list AnimFileEntry)
    (acc : list AnimFileEntryMetadata) :
  AnimFileEntryMetadataProcessor.template_rows (e :: rest) acc
  = Raise (TypeError "root_motion").
Proof. reflexivity. Qed.

(** C8.  For every folder: when some plain file below it has a
    lowercased name ending in [.fbx],
    [build_metadata_list_template_from_folder] raises the [TypeError]
    of a constructor call that lacks [root_motion]; it returns a list
    only when there is no such file, and the list is then empty. *)
Theorem template_from_folder_raises
    (relpath : string -> string -> string) (root_path : string)
    (root_contents : list fs_node) :
  let has_fbx :=
    exists d name, file_in root_path root_contents (d, name)
                   /\ has_suffix ".fbx" (PyStr.lower name) in
  (has_fbx ->
     AnimFileEntryMetadataProcessor.build_metadata_list_template_from_folder
       relpath root_path root_contents = Raise (TypeError "root_motion"))
  /\ (~ has_fbx ->
        AnimFileEntryMetadataProcessor.build_metadata_list_template_from_folder
          relpath root_path root_contents = Ok [])
  /\ (forall l,
        AnimFileEntryMetadataProcessor.build_metadata_list_template_from_folder
          relpath root_path root_contents = Ok l ->
        l = [] /\ ~ has_fbx).
Proof.
  intros has_fbx.
  unfold AnimFileEntryMetadataProcessor.build_metadata_list_template_from_folder.
  cbn zeta. rewrite crawl_folders_for_anims_eq. cbn [app].
  change (AnimFileCrawler.root_path (AnimFileCrawler.init root_path))
    with root_path.
  assert (Hiff : has_fbx <->
                 kept_entries relpath (AnimFileCrawler.init root_path)
                   (files_below root_path root_contents) <> []).
  { unfold has_fbx, kept_entries. split.
    - intros [d [name [Hin Hs]]] Hnil.
      apply files_below_file_in in Hin. apply endswith_spec in Hs.
      assert (Hf : In (d, name)
                     (List.filter
                        (fun df => wanted (AnimFileCrawler.init root_path)
                                          (snd df))
                        (files_below root_path root_contents))).
      { apply filter_In. split; [exact Hin|]. cbn [snd].
        rewrite wanted_default. exact Hs. }
      apply (in_map (fun df => AnimFileCrawler.make_entry relpath
                                 (AnimFileCrawler.init root_path)
                                 (OsPath.join (fst df) (snd df)))) in Hf.
      rewrite Hnil in Hf. destruct Hf.
    - intros Hne.
      destruct (List.filter
                  (fun df => wanted (AnimFileCrawler.init root_path) (snd df))
                  (files_below root_path root_contents))
        as [|[d name] rest] eqn:Hf; [contradiction Hne; reflexivity|].
      assert (Hin : In (d, name)
                      (List.filter
                         (fun df => wanted (AnimFileCrawler.init root_path)
                                           (snd df))
                         (files_below root_path root_contents)))
        by (rewrite Hf; now left).
      apply filter_In in Hin as [Hin Hw]. cbn [snd] in Hw.
      rewrite wanted_default in Hw.
      exists d, name. split.
      + apply files_below_file_in, Hin.
      + apply endswith_spec, Hw. }
  destruct (kept_entries relpath (AnimFileCrawler.init root_path)
              (files_below root_path root_contents)) as [|e rest].
  - assert (Hno : ~ has_fbx) by (rewrite Hiff; intros H; apply H; reflexivity).
    repeat split.
    + intros H. contradiction.
    + cbn in H. congruence.
    + exact Hno.
  - assert (Hyes : has_fbx) by (rewrite Hiff; discriminate).
    rewrite template_rows_cons. repeat split.
    + intros H. contradiction.
    + discriminate.
    + discriminate.
Qed.

(** ** Insertion-ordered dicts *)

Section ODictFacts.
Context {V : Type}.
Implicit Types (d : list (string * V)) (k : string) (v : V).

Lemma odict_get_set_eq d k v : ODict.get k (ODict.set k v d) = Some v.
Proof.
  induction d as [|[k' w] d IH]; cbn.
  - rewrite String.eqb_refl. reflexivity.
  - destruct (String.eqb k' k) eqn:E; cbn; rewrite E; [reflexivity | exact IH].
Qed.

Lemma odict_get_set_ne d k k' v :
  k' <> k -> ODict.get k' (ODict.set k v d) = ODict.get k' d.
Proof.
  intros Hne. induction d as [|[k0 w] d IH]; cbn.
  - destruct (String.eqb_spec k k'); [congruence | reflexivity].
  - destruct (String.eqb_spec k0 k) as [->|Hk]; cbn.
    + destruct (String.eqb_spec k k'); [congruence | reflexivity].
    + destruct (String.eqb k0 k'); [reflexivity | exact IH].
Qed.

Lemma odict_in_keys d k : In k (ODict.keys d) <-> ODict.get k d <> None.
Proof.
  unfold ODict.keys. induction d as [|[k0 w] d IH]; cbn.
  - split; [intros [] | intros H; apply H; reflexivity].
  - destruct (String.eqb_spec k0 k) as [->|Hk].
    + split; [discriminate | intros _; now left].
    + rewrite <- IH. split; [intros [H|H]; [contradiction | exact H] | now right].
Qed.

Lemma odict_keys_set_present d k v :
  ODict.get k d <> None -> ODict.keys (ODict.set k v d) = ODict.keys d.
Proof.
  unfold ODict.keys. induction d as [|[k0 w] d IH]; cbn; intros H.
  - contradiction H. reflexivity.
  - destruct (String.eqb_spec k0 k) as [->|Hk]; cbn; [reflexivity|].
    rewrite (IH H). reflexivity.
Qed.

Lemma odict_keys_set_absent d k v :
  ODict.get k d = None -> ODict.keys (ODict.set k v d) = ODict.keys d ++ [k].
Proof.
  unfold ODict.keys. induction d as [|[k0 w] d IH]; cbn; intros H.
  - reflexivity.
  - destruct (String.eqb_spec k0 k) as [->|Hk]; [discriminate|]. cbn.
    rewrite (IH H). reflexivity.
Qed.
End ODictFacts.

(** ** Grouping *)

Lemma string_eqb_sym (a b : string) : String.eqb a b = String.eqb b a.
Proof.
  destruct (String.eqb_spec a b) as [->|H].
  - symmetry. apply String.eqb_refl.
  - symmetry. apply String.eqb_neq. congruence.
Qed.

Lemma add_to_group_eq (self : AnimMetadataOrganizer.t)
    (l : list AnimFileEntryMetadata) (g : string) (e : AnimFileEntry) :
  AnimMetadataOrganizer._anim_metadata_list self = Some l ->
  AnimMetadataOrganizer.add_to_group self g e
  = Ok (AnimMetadataOrganizer.mk (group_map_after self g e) (Some l)
          (AnimMetadataOrganizer._tpose_metadata self)
          (tpose_after self l e)).
Proof.
  intros Hl.
  unfold AnimMetadataOrganizer.add_to_group,
    AnimMetadataOrganizer.try_find_anim_metadata_for_entry,
    group_map_after, tpose_after.
  rewrite Hl. destruct self as [gm ml tm tf]; cbn in *.
  destruct (ODict.get g gm) as [mg|]; destruct tf as [x|]; cbn;
    try destruct (bool_decide _); reflexivity.
Qed.

(** One call of [add_to_group] on an organizer whose metadata list is
    set. *)
Lemma add_to_group_step (self : AnimMetadataOrganizer.t)
    (l : list AnimFileEntryMetadata) (g : string) (e : AnimFileEntry) :
  AnimMetadataOrganizer._anim_metadata_list self = Some l ->
  exists self',
    AnimMetadataOrganizer.add_to_group self g e = Ok self'
    /\ AnimMetadataOrganizer._anim_metadata_list self' = Some l
    /\ AnimMetadataOrganizer._tpose_metadata self'
       = AnimMetadataOrganizer._tpose_metadata self
    /\ AnimMetadataOrganizer._tpose_file_entry self' = tpose_after self l e
    /\ (forall h,
          AnimMetadataOrganizer.get_anim_file_entries_for_group self' h
          = if String.eqb g h
            then AnimMetadataOrganizer.get_anim_file_entries_for_group self h
                 ++ [e]
            else AnimMetadataOrganizer.get_anim_file_entries_for_group self h)
    /\ AnimMetadataOrganizer.get_group_names self'
       = if bool_decide (g ∈ AnimMetadataOrganizer.get_group_names self)
         then AnimMetadataOrganizer.get_group_names self
         else AnimMetadataOrganizer.get_group_names self ++ [g].
Proof.
  intros Hl. eexists. split; [apply (add_to_group_eq self l g e Hl)|].
  unfold AnimMetadataOrganizer.get_anim_file_entries_for_group,
    AnimMetadataOrganizer.get_group_names, group_map_after.
  cbn [AnimMetadataOrganizer._anim_metadata_list
       AnimMetadataOrganizer._tpose_metadata
       AnimMetadataOrganizer._tpose_file_entry
       AnimMetadataOrganizer._group_map].
  split; [reflexivity|]. split; [reflexivity|]. split; [reflexivity|].
  set (gm := AnimMetadataOrganizer._group_map self).
  destruct (ODict.get g gm) as [mg|] eqn:Hg.
  - assert (Hin : In g (ODict.keys gm))
      by (apply odict_in_keys; rewrite Hg; discriminate).
    split.
    + intros h. destruct (String.eqb_spec g h) as [<-|Hne].
      * rewrite odict_get_set_eq, Hg. reflexivity.
      * rewrite odict_get_set_ne by congruence. reflexivity.
    + rewrite bool_decide_eq_true_2 by (apply list_elem_of_In; exact Hin).
      apply odict_keys_set_present. rewrite Hg. discriminate.
  - assert (Hnin : ~ In g (ODict.keys gm))
      by (rewrite odict_in_keys, Hg; intros H; apply H; reflexivity).
    split.
    + intros h. destruct (String.eqb_spec g h) as [<-|Hne].
      * rewrite odict_get_set_eq, Hg. reflexivity.
      * rewrite !odict_get_set_ne by congruence. reflexivity.
    + rewrite bool_decide_eq_false_2
        by (rewrite list_elem_of_In; exact Hnin).
      rewrite odict_keys_set_present
        by (rewrite odict_get_set_eq; discriminate).
      apply odict_keys_set_absent, Hg.
Qed.

(** A sequence of [add_to_group] calls on an organizer whose metadata
    list is set. *)
Lemma add_all_spec (l : list AnimFileEntryMetadata)
    (calls : list (string * AnimFileEntry)) :
  forall self,
    AnimMetadataOrganizer._anim_metadata_list self = Some l ->
    exists self',
      AnimMetadataOrganizer.add_all self calls = Ok self'
      /\ AnimMetadataOrganizer._anim_metadata_list self' = Some l
      /\ AnimMetadataOrganizer._tpose_metadata self'
         = AnimMetadataOrganizer._tpose_metadata self
      /\ (forall h,
            AnimMetadataOrganizer.get_anim_file_entries_for_group self' h
            = AnimMetadataOrganizer.get_anim_file_entries_for_group self h
              ++ added_under calls h)
      /\ (forall h,
            In h (AnimMetadataOrganizer.get_group_names self')
            <-> In h (AnimMetadataOrganizer.get_group_names self)
                \/ In h (map fst calls))
      /\ (List.NoDup (AnimMetadataOrganizer.get_group_names self) ->
          List.NoDup (AnimMetadataOrganizer.get_group_names self'))
      /\ AnimMetadataOrganizer._tpose_file_entry self'
         = match AnimMetadataOrganizer._tpose_file_entry self with
           | Some x => Some x
           | None =>
               List.find
                 (fun e => bool_decide
                             (AnimMetadataOrganizer.find_metadata l e
                              = AnimMetadataOrganizer._tpose_metadata self))
                 (map snd calls)
           end.
Proof.
  induction calls as [|[g e] calls IH]; intros self Hl.
  - exists self. cbn [AnimMetadataOrganizer.add_all map List.find].
    split; [reflexivity|]. split; [exact Hl|]. split; [reflexivity|].
    split; [|split; [|split]].
    + intros h. unfold added_under. cbn. rewrite app_nil_r. reflexivity.
    + intros h. cbn [In]. tauto.
    + tauto.
    + destruct (AnimMetadataOrganizer._tpose_file_entry self); reflexivity.
  - destruct (add_to_group_step self l g e Hl)
      as (self1 & Hadd & Hl1 & Htm1 & Htf1 & Hent1 & Hnames1).
    destruct (IH self1 Hl1)
      as (self' & Hall & Hl' & Htm' & Hent' & Hnames' & Hnodup' & Htf').
    exists self'. cbn [AnimMetadataOrganizer.add_all]. rewrite Hadd. cbn.
    split; [exact Hall|]. split; [exact Hl'|].
    split; [congruence|]. split; [|split; [|split]].
    + intros h. rewrite Hent', Hent1. unfold added_under.
      cbn [List.filter fst]. destruct (String.eqb g h); cbn [map snd].
      * rewrite <- app_assoc. reflexivity.
      * reflexivity.
    + intros h. rewrite Hnames', Hnames1. cbn [map fst In].
      destruct (bool_decide_reflect
                  (g ∈ AnimMetadataOrganizer.get_group_names self)) as [Hg|Hg].
      * apply list_elem_of_In in Hg. split; [tauto|].
        intros [H|[<-|H]]; tauto.
      * rewrite in_app_iff. cbn [In]. tauto.
    + intros Hnd. apply Hnodup'. rewrite Hnames1.
      destruct (bool_decide_reflect
                  (g ∈ AnimMetadataOrganizer.get_group_names self)) as [Hg|Hg].
      * exact Hnd.
      * rewrite list_elem_of_In in Hg.
        apply List.NoDup_app; repeat split; try assumption.
        -- constructor; [intros []|constructor].
        -- intros x Hx [<-|[]]. contradiction.
    + rewrite Htf', Htf1, Htm1. unfold tpose_after. cbn [map snd List.find].
      destruct (AnimMetadataOrganizer._tpose_file_entry self); [reflexivity|].
      repeat case_bool_decide; try reflexivity; contradiction.
Qed.

(** C5, as stated, fails: an entry added under two group names is in
    the lists of both, so after adding it under ["a"] it is also in the
    list of the other group ["b"]. *)
Lemma grouping_not_exclusive :
  exists self',
    AnimMetadataOrganizer.add_all
      (AnimMetadataOrganizer.set_anim_metadata_list
         AnimMetadataOrganizer.init Sample.metadata_list)
      [("a", Sample.walk_entry); ("b", Sample.walk_entry)] = Ok self'
    /\ In ("a", Sample.walk_entry)
          [("a", Sample.walk_entry); ("b", Sample.walk_entry)]
    /\ "b" <> "a"
    /\ In Sample.walk_entry
          (AnimMetadataOrganizer.get_anim_file_entries_for_group self' "b").
Proof.
  eexists. split; [vm_compute; reflexivity|].
  split; [now left|]. split; [discriminate|]. now left.
Qed.

(** Before [set_anim_metadata_list] has run, the first [add_to_group]
    stops on the missing attribute. *)
Example add_to_group_before_metadata :
  AnimMetadataOrganizer.add_to_group AnimMetadataOrganizer.init "g"
    Sample.walk_entry
  = Raise (AttributeError "_anim_metadata_list").
Proof. reflexivity. Qed.

(** C5 (amended).  For every organizer whose metadata list has been
    set and every sequence of [add_to_group] calls: the calls succeed;
    the list of a group is the entries added under that name, in the
    order they were added, so an entry is in the list of [g] exactly
    when it was added under [g]; [get_group_names] holds exactly the
    names that were added, each once; the list of a name never added is
    empty; and an entry added under one name only is in the list of no
    other group. *)
Theorem add_to_group_grouping
    (anim_metadata_list : list AnimFileEntryMetadata)
    (calls : list (string * AnimFileEntry)) :
  exists self',
    AnimMetadataOrganizer.add_all
      (AnimMetadataOrganizer.set_anim_metadata_list
         AnimMetadataOrganizer.init anim_metadata_list) calls = Ok self'
    /\ (forall g,
          AnimMetadataOrganizer.get_anim_file_entries_for_group self' g
          = added_under calls g)
    /\ (forall g e,
          In e (AnimMetadataOrganizer.get_anim_file_entries_for_group self' g)
          <-> In (g, e) calls)
    /\ (forall g,
          In g (AnimMetadataOrganizer.get_group_names self')
          <-> exists e, In (g, e) calls)
    /\ List.NoDup (AnimMetadataOrganizer.get_group_names self')
    /\ (forall g,
          (forall e, ~ In (g, e) calls) ->
          AnimMetadataOrganizer.get_anim_file_entries_for_group self' g = [])
    /\ (forall g e,
          In (g, e) calls ->
          (forall h, In (h, e) calls -> h = g) ->
          forall h,
            h <> g ->
            ~ In e (AnimMetadataOrganizer.get_anim_file_entries_for_group
                      self' h)).
Proof.
  destruct (add_all_spec anim_metadata_list calls
              (AnimMetadataOrganizer.set_anim_metadata_list
                 AnimMetadataOrganizer.init anim_metadata_list) eq_refl)
    as (self' & Hall & _ & _ & Hent & Hnames & Hnodup & _).
  assert (Hin : forall g e, In e (added_under calls g) <-> In (g, e) calls).
  { intros g e. unfold added_under. rewrite in_map_iff. split.
    - intros [[g' e'] [He Hc]]. apply filter_In in Hc as [Hc Hg].
      cbn in He, Hg. apply String.eqb_eq in Hg. subst. exact Hc.
    - intros Hc. exists (g, e). split; [reflexivity|].
      apply filter_In. split; [exact Hc | apply String.eqb_refl]. }
  exists self'. split; [exact Hall|].
  split; [|split; [|split; [|split; [|split]]]].
  - intros g. rewrite Hent. reflexivity.
  - intros g e. rewrite Hent. cbn [app]. apply Hin.
  - intros g. rewrite Hnames. cbn [In]. rewrite in_map_iff. split.
    + intros [[]|[[g' e] [<- Hc]]]. exists e. exact Hc.
    + intros [e Hc]. right. exists (g, e). split; [reflexivity | exact Hc].
  - apply Hnodup. constructor.
  - intros g Hnone. rewrite Hent. cbn [app].
    destruct (added_under calls g) as [|e rest] eqn:Ha; [reflexivity|].
    exfalso. apply (Hnone e), Hin. rewrite Ha. now left.
  - intros g e _ Honly h Hne Hh. rewrite Hent in Hh. cbn [app] in Hh.
    apply Hin in Hh. apply Hne, Honly, Hh.
Qed.

(** ** The t-pose file *)

Lemma find_tpose_some (l : list AnimFileEntryMetadata)
    (t : AnimFileEntryMetadata) :
  AnimMetadataOrganizer.find_tpose l = Some t <-> first_tpose_row l t.
Proof.
  unfold first_tpose_row. induction l as [|x l IH];
    cbn [AnimMetadataOrganizer.find_tpose].
  - split; [discriminate|]. intros [b [a [H _]]]. destruct b; discriminate.
  - destruct (String.eqb_spec (tags x) "tpose") as [Hx|Hx].
    + split.
      * intros [= <-]. exists [], l. repeat split; [exact Hx | constructor].
      * intros [b [a [Hl [Ht Hb]]]]. destruct b as [|y b].
        -- injection Hl as -> _. reflexivity.
        -- injection Hl as -> _. inversion Hb; subst. contradiction.
    + rewrite IH. split.
      * intros [b [a [-> [Ht Hb]]]]. exists (x :: b), a.
        repeat split; [exact Ht | constructor; assumption].
      * intros [b [a [Hl [Ht Hb]]]]. destruct b as [|y b].
        -- injection Hl as -> _. contradiction.
        -- injection Hl as -> ->. inversion Hb; subst.
           exists b, a. repeat split; assumption.
Qed.

(** C1 at the failing input: with a metadata list that has no row
    tagged ['tpose'], adding one entry that matches no row makes that
    entry the t-pose file, where [None] is expected. *)
Theorem tpose_entry_without_tpose_row :
  AnimMetadataOrganizer.find_tpose [Sample.walk_row] = None
  /\ AnimMetadataOrganizer.find_metadata [Sample.walk_row] Sample.stray_entry
     = None
  /\ exists self',
       AnimMetadataOrganizer.add_to_group
         (AnimMetadataOrganizer.set_anim_metadata_list
            AnimMetadataOrganizer.init [Sample.walk_row])
         "g" Sample.stray_entry = Ok self'
       /\ AnimMetadataOrganizer.get_tpose_anim_file_entry self'
          = Some Sample.stray_entry.
Proof.
  split; [reflexivity|]. split; [reflexivity|].
  eexists. split; [vm_compute; reflexivity | reflexivity].
Qed.

(** When every added entry has a metadata row, as in the batch
    operator, the t-pose file is the first entry added whose row is the
    first row tagged ['tpose'], and there is none when no row is tagged
    or no added entry has that row. *)
Lemma tpose_entry_of_matched_calls
    (anim_metadata_list : list AnimFileEntryMetadata)
    (calls : list (string * AnimFileEntry)) :
  (forall g e, In (g, e) calls ->
               AnimMetadataOrganizer.find_metadata anim_metadata_list e
               <> None) ->
  exists self',
    AnimMetadataOrganizer.add_all
      (AnimMetadataOrganizer.set_anim_metadata_list
         AnimMetadataOrganizer.init anim_metadata_list) calls = Ok self'
    /\ AnimMetadataOrganizer.get_tpose_anim_file_entry self'
       = first_tpose_candidate anim_metadata_list calls
    /\ (forall e,
          AnimMetadataOrganizer.get_tpose_anim_file_entry self' = Some e ->
          exists g t,
            In (g, e) calls
            /\ first_tpose_row anim_metadata_list t
            /\ first_match anim_metadata_list e t)
    /\ (AnimMetadataOrganizer.find_tpose anim_metadata_list = None ->
        AnimMetadataOrganizer.get_tpose_anim_file_entry self' = None)
    /\ ((forall g e t,
           In (g, e) calls ->
           first_tpose_row anim_metadata_list t ->
           ~ first_match anim_metadata_list e t) ->
        AnimMetadataOrganizer.get_tpose_anim_file_entry self' = None).
Proof.
  intros Hmatched.
  destruct (add_all_spec anim_metadata_list calls
              (AnimMetadataOrganizer.set_anim_metadata_list
                 AnimMetadataOrganizer.init anim_metadata_list) eq_refl)
    as (self' & Hall & _ & _ & _ & _ & _ & Htf).
  cbn in Htf. unfold AnimMetadataOrganizer.get_tpose_anim_file_entry.
  fold (first_tpose_candidate anim_metadata_list calls) in Htf.
  assert (Hsome : forall e,
             first_tpose_candidate anim_metadata_list calls = Some e ->
             exists g t,
               In (g, e) calls
               /\ first_tpose_row anim_metadata_list t
               /\ first_match anim_metadata_list e t).
  { intros e He. unfold first_tpose_candidate in He.
    apply find_some in He as [Hin Hdec].
    apply bool_decide_eq_true_1 in Hdec.
    apply in_map_iff in Hin as [[g e'] [<- Hin]]. cbn [snd] in *.
    destruct (AnimMetadataOrganizer.find_metadata anim_metadata_list e')
      as [m|] eqn:Hm; [|exfalso; exact (Hmatched g e' Hin Hm)].
    exists g, m. split; [exact Hin|]. split.
    - apply find_tpose_some. symmetry. exact Hdec.
    - apply find_metadata_some. exact Hm. }
  exists self'. split; [exact Hall|]. split; [exact Htf|]. rewrite Htf.
  split; [exact Hsome|]. split.
  - intros Hnone.
    destruct (first_tpose_candidate anim_metadata_list calls) as [e|] eqn:He;
      [|reflexivity].
    destruct (Hsome e eq_refl) as (g & t & _ & Ht & _).
    apply find_tpose_some in Ht. congruence.
  - intros Hno.
    destruct (first_tpose_candidate anim_metadata_list calls) as [e|] eqn:He;
      [|reflexivity].
    destruct (Hsome e eq_refl) as (g & t & Hin & Ht & Hm).
    exfalso. exact (Hno g e t Hin Ht Hm).
Qed.

(** ** The operator sequence *)

Lemma push_entries_eq (entries : list AnimFileEntry) :
  forall trace,
    SCENE_OP_retarget_batcher.push_entries entries trace
    = trace ++ map push_event entries.
Proof.
  induction entries as [|e entries IH]; intros trace; cbn.
  - rewrite app_nil_r. reflexivity.
  - rewrite IH, <- app_assoc. reflexivity.
Qed.

Lemma export_groups_eq (org : AnimMetadataOrganizer.t) (export_path : string)
    (groups : list string) :
  forall trace,
    SCENE_OP_retarget_batcher.export_groups org export_path groups trace
    = trace ++ flat_map (group_block org export_path) groups.
Proof.
  induction groups as [|g groups IH]; intros trace.
  - cbn. rewrite app_nil_r. reflexivity.
  - cbn [SCENE_OP_retarget_batcher.export_groups flat_map].
    rewrite IH, push_entries_eq. unfold group_block.
    rewrite <- !app_assoc. reflexivity.
Qed.

Lemma organize_entries_eq (l : list AnimFileEntryMetadata)
    (anim_entries : list AnimFileEntry) :
  forall org,
    AnimMetadataOrganizer._anim_metadata_list org = Some l ->
    SCENE_OP_retarget_batcher.organize_entries org anim_entries
    = AnimMetadataOrganizer.add_all org (matched_calls l anim_entries).
Proof.
  induction anim_entries as [|e entries IH]; intros org Hl; [reflexivity|].
  cbn [SCENE_OP_retarget_batcher.organize_entries matched_calls flat_map].
  unfold AnimMetadataOrganizer.try_find_anim_metadata_for_entry.
  rewrite Hl. cbn [mbind result_bind].
  destruct (AnimMetadataOrganizer.find_metadata l e) as [m|].
  - cbn [app AnimMetadataOrganizer.add_all]. fold (with_loop e m).
    destruct (add_to_group_step org l (group m) (with_loop e m) Hl)
      as (org1 & -> & Hl1 & _). cbn [mbind result_bind].
    apply (IH org1 Hl1).
  - cbn [app]. apply (IH org Hl).
Qed.

Lemma find_target_rig_setup (h : Host) (org : AnimMetadataOrganizer.t) :
  forallb is_setup_event (fst (SCENE_OP_retarget_batcher.find_target_rig h org))
  = true.
Proof.
  unfold SCENE_OP_retarget_batcher.find_target_rig.
  destruct (target_rig h); [reflexivity|].
  destruct (Nat.eqb (scene_objects_len h) 0); [|reflexivity].
  destruct (AnimMetadataOrganizer.get_tpose_anim_file_entry org);
    [|reflexivity].
  destruct (active_object h); reflexivity.
Qed.

(** A run that finishes: what was loaded and organized, and the calls
    issued. *)
Lemma execute_finished (h : Host) (trace : list event) :
  SCENE_OP_retarget_batcher.execute h = (trace, Ok FINISHED) ->
  exists l org setup,
    AnimFileEntryMetadataProcessor.load_metadata_list (files h)
      (fix_synty_with_arp_anim_config_csv h)
      (fix_synty_with_arp_ignore_root_motion h) = Ok l
    /\ AnimMetadataOrganizer.add_all
         (AnimMetadataOrganizer.set_anim_metadata_list
            AnimMetadataOrganizer.init l)
         (matched_calls l (crawled_entries h)) = Ok org
    /\ SCENE_OP_retarget_batcher.crawl_and_organize h = Ok org
    /\ forallb is_setup_event setup = true
    /\ trace
       = setup
         ++ flat_map (group_block org (fix_synty_with_arp_export_path h))
                     (AnimMetadataOrganizer.get_group_names org)
         ++ [Report ["INFO"] (Some "Exports finished.")].
Proof.
  unfold SCENE_OP_retarget_batcher.execute. cbn zeta.
  destruct (String.eqb _ ""); [discriminate|].
  destruct (negb (path_exists h (fix_synty_with_arp_anim_config_csv h)));
    [discriminate|].
  destruct (negb (path_exists h (fix_synty_with_arp_import_path h)));
    [discriminate|].
  destruct (negb (path_exists h (fix_synty_with_arp_export_path h)));
    [discriminate|].
  destruct (SCENE_OP_retarget_batcher.crawl_and_organize h) as [org|err] eqn:Hco;
    [|discriminate].
  pose proof (find_target_rig_setup h org) as Hsetup.
  destruct (SCENE_OP_retarget_batcher.find_target_rig h org)
    as [setup [[rig|]|err]]; try discriminate.
  destruct (Nat.eqb (bones_map_v2_len h) 0); [discriminate|].
  intros [= <-]. rewrite export_groups_eq, <- app_assoc.
  unfold SCENE_OP_retarget_batcher.crawl_and_organize in Hco. cbn zeta in Hco.
  destruct (AnimFileEntryMetadataProcessor.load_metadata_list _ _ _)
    as [l|err] eqn:Hload; [|discriminate].
  cbn [mbind result_bind] in Hco.
  rewrite (organize_entries_eq l) in Hco by reflexivity.
  exists l, org, setup.
  split; [reflexivity|]. split; [exact Hco|]. split; [|split].
  - reflexivity.
  - exact Hsetup.
  - reflexivity.
Qed.

Lemma in_matched_calls (l : list AnimFileEntryMetadata)
    (anim_entries : list AnimFileEntry) (g : string) (e' : AnimFileEntry) :
  In (g, e') (matched_calls l anim_entries)
  <-> exists e m,
        In e anim_entries
        /\ AnimMetadataOrganizer.find_metadata l e = Some m
        /\ g = group m /\ e' = with_loop e m.
Proof.
  unfold matched_calls. rewrite in_flat_map. split.
  - intros [e [He Hin]].
    destruct (AnimMetadataOrganizer.find_metadata l e) as [m|] eqn:Hm;
      [|destruct Hin].
    destruct Hin as [[= <- <-]|[]]. exists e, m. auto.
  - intros (e & m & He & Hm & -> & ->). exists e. split; [exact He|].
    rewrite Hm. now left.
Qed.

Lemma in_added_under (calls : list (string * AnimFileEntry)) (g : string)
    (e : AnimFileEntry) :
  In e (added_under calls g) <-> In (g, e) calls.
Proof.
  unfold added_under. rewrite in_map_iff. split.
  - intros [[g' e'] [He Hc]]. apply filter_In in Hc as [Hc Hg].
    cbn in He, Hg. apply String.eqb_eq in Hg. subst. exact Hc.
  - intros Hc. exists (g, e). split; [reflexivity|].
    apply filter_In. split; [exact Hc | apply String.eqb_refl].
Qed.

Lemma push_in_group_block (org : AnimMetadataOrganizer.t)
    (export_path g p n : string) :
  In (PushFbxAnimationToTargetRigNlaTrack p n) (group_block org export_path g)
  <-> exists e,
        In e (AnimMetadataOrganizer.get_anim_file_entries_for_group org g)
        /\ p = full_path e
        /\ n = SCENE_OP_retarget_batcher.anim_name_of e.
Proof.
  unfold group_block. cbn [app In]. rewrite in_app_iff, in_map_iff. split.
  - intros [H|[[e [He Hin]]|[H|[H|[]]]]]; try discriminate.
    injection He as <- <-. exists e. auto.
  - intros (e & Hin & -> & ->). right. left. exists e. auto.
Qed.

Lemma push_not_setup (setup : list event) (p n : string) :
  forallb is_setup_event setup = true ->
  ~ In (PushFbxAnimationToTargetRigNlaTrack p n) setup.
Proof.
  intros Hs Hin. rewrite forallb_forall in Hs. specialize (Hs _ Hin).
  discriminate.
Qed.

(** C6.  In a run of [execute] that finishes, after the calls that set
    up the target rig, each group in turn gets one block of calls: the
    NLA tracks are cleared, then each animation file of the group is
    imported and retargeted, then the scene is exported once (and the
    orphans purged); each group has its block once; and an animation
    file is imported and retargeted exactly when it was crawled and a
    metadata row matches its base name. *)
Theorem execute_operator_sequence (h : Host) (trace : list event) :
  SCENE_OP_retarget_batcher.execute h = (trace, Ok FINISHED) ->
  exists l org setup,
    AnimFileEntryMetadataProcessor.load_metadata_list (files h)
      (fix_synty_with_arp_anim_config_csv h)
      (fix_synty_with_arp_ignore_root_motion h) = Ok l
    /\ SCENE_OP_retarget_batcher.crawl_and_organize h = Ok org
    /\ forallb is_setup_event setup = true
    /\ trace
       = setup
         ++ flat_map (group_block org (fix_synty_with_arp_export_path h))
                     (AnimMetadataOrganizer.get_group_names org)
         ++ [Report ["INFO"] (Some "Exports finished.")]
    /\ List.NoDup (AnimMetadataOrganizer.get_group_names org)
    /\ (forall g,
          In g (AnimMetadataOrganizer.get_group_names org) ->
          exists before after,
            trace
            = before
              ++ group_block org (fix_synty_with_arp_export_path h) g
              ++ after)
    /\ (forall p n,
          In (PushFbxAnimationToTargetRigNlaTrack p n) trace
          <-> exists e m,
                In e (crawled_entries h)
                /\ AnimMetadataOrganizer.find_metadata l e = Some m
                /\ p = full_path e
                /\ n = SCENE_OP_retarget_batcher.anim_name_of (with_loop e m)).
Proof.
  intros Hrun.
  destruct (execute_finished h trace Hrun)
    as (l & org & setup & Hload & Hadd & Hco & Hsetup & ->).
  destruct (add_all_spec l (matched_calls l (crawled_entries h))
              (AnimMetadataOrganizer.set_anim_metadata_list
                 AnimMetadataOrganizer.init l) eq_refl)
    as (org' & Hadd' & _ & _ & Hent & Hnames & Hnodup & _).
  rewrite Hadd in Hadd'. injection Hadd' as <-.
  exists l, org, setup.
  split; [exact Hload|]. split; [exact Hco|]. split; [exact Hsetup|].
  split; [reflexivity|]. split; [apply Hnodup; constructor|]. split.
  - intros g Hg. apply in_split in Hg as [before [after Hg]].
    rewrite Hg, flat_map_app. cbn [flat_map].
    exists (setup
            ++ flat_map (group_block org (fix_synty_with_arp_export_path h))
                        before),
      (flat_map (group_block org (fix_synty_with_arp_export_path h)) after
       ++ [Report ["INFO"] (Some "Exports finished.")]).
    rewrite <- !app_assoc. reflexivity.
  - intros p n. rewrite !in_app_iff, in_flat_map. split.
    + intros [Hin|[[g [Hg Hin]]|[Hin|[]]]].
      * exfalso. exact (push_not_setup setup p n Hsetup Hin).
      * apply push_in_group_block in Hin as (e' & Hin & -> & ->).
        rewrite Hent in Hin. cbn [app] in Hin.
        apply in_added_under, in_matched_calls in Hin
          as (e & m & He & Hm & -> & ->).
        exists e, m. auto.
      * discriminate.
    + intros (e & m & He & Hm & -> & ->). right. left.
      assert (Hc : In (group m, with_loop e m)
                     (matched_calls l (crawled_entries h)))
        by (apply in_matched_calls; exists e, m; auto).
      exists (group m). split.
      * apply Hnames. right. apply in_map_iff.
        exists (group m, with_loop e m). auto.
      * apply push_in_group_block. exists (with_loop e m).
        split; [|split; reflexivity].
        rewrite Hent. cbn [app]. apply in_added_under, Hc.
Qed.

(** ** Determinism *)


Lemma crawl_and_organize_eq (h : Host) :
  SCENE_OP_retarget_batcher.crawl_and_organize h
  = AnimFileEntryMetadataProcessor.load_metadata_list (files h)
      (fix_synty_with_arp_anim_config_csv h)
      (fix_synty_with_arp_ignore_root_motion h)
    ≫= fun l =>
         SCENE_OP_retarget_batcher.organize_entries
           (AnimMetadataOrganizer.set_anim_metadata_list
              AnimMetadataOrganizer.init l)
           (crawled_entries h).
Proof. reflexivity. Qed.


(** ** The theorems at the sample inputs *)

(** C2 on the sample tree, with a crawler that filters by name and a
    list that already holds an entry. *)
Lemma crawl_folders_for_anims_spec_witness :
  forallb node_names_ok Sample.tree = true
  /\ AnimFileCrawler.crawl_folders_for_anims Sample.below
       Sample.walk_crawler "/r" Sample.tree [Sample.stray_entry]
     = [Sample.stray_entry; Sample.walk_entry].
Proof.
  split; [reflexivity|].
  rewrite (proj1 (crawl_folders_for_anims_spec Sample.below
                    Sample.walk_crawler "/r" Sample.tree
                    [Sample.stray_entry] eq_refl)).
  reflexivity.
Defined.

(** C6 on the sample host: the run finishes with the sample trace. *)
Lemma execute_operator_sequence_witness :
  SCENE_OP_retarget_batcher.execute Sample.host = (Sample.trace, Ok FINISHED)
  /\ exists l org,
       SCENE_OP_retarget_batcher.crawl_and_organize Sample.host = Ok org
       /\ AnimFileEntryMetadataProcessor.load_metadata_list
            (files Sample.host)
            (fix_synty_with_arp_anim_config_csv Sample.host)
            (fix_synty_with_arp_ignore_root_motion Sample.host) = Ok l
       /\ List.NoDup (AnimMetadataOrganizer.get_group_names org).
Proof.
  split; [vm_compute; reflexivity|].
  destruct (execute_operator_sequence Sample.host Sample.trace)
    as (l & org & setup & Hload & Hco & _ & _ & Hnodup & _).
  - vm_compute. reflexivity.
  - exists l, org. auto.
Defined.


(** ** Worked examples *)

Example should_loop_walk :
  AnimFileCrawler.should_loop "/a/b/A_Walk_F.fbx" = true.
Proof. reflexivity. Qed.

Example should_loop_transition :
  AnimFileCrawler.should_loop "/a/b/Idle_To_Walk.fbx" = false.
Proof. reflexivity. Qed.

Example should_loop_jump_idle :
  AnimFileCrawler.should_loop "/a/b/Jump_Idle.fbx" = false.
Proof. reflexivity. Qed.

Example should_loop_other :
  AnimFileCrawler.should_loop "/a/b/Attack.fbx" = false.
Proof. reflexivity. Qed.

Example basename_of_path : OsPath.basename "/a/b/c.fbx" = "c.fbx".
Proof. reflexivity. Qed.

Example join_folder_name : OsPath.join "/a/b" "c.fbx" = "/a/b/c.fbx".
Proof. reflexivity. Qed.

Example splitext_two_dots : OsPath.splitext_root "c.d.fbx" = "c.d".
Proof. reflexivity. Qed.

Example splitext_hidden : OsPath.splitext_root ".fbx" = ".fbx".
Proof. reflexivity. Qed.

Example crawl_sample :
  map full_path (crawled_entries Sample.host)
  = ["/r/A_Walk.FBX"; "/r/sub/Idle_To_Walk.fbx"; "/r/sub/deep/Jump.fbx";
     "/r/T.fbx"].
Proof. reflexivity. Qed.

Example load_sample :
  AnimFileEntryMetadataProcessor.load_metadata_list
    Sample.store "/cfg/m.csv" false
  = Ok Sample.metadata_list.
Proof. vm_compute. reflexivity. Qed.

Example load_sample_without_root_motion :
  AnimFileEntryMetadataProcessor.load_metadata_list
    Sample.store "/cfg/m.csv" true
  = Ok [Sample.walk_row; Sample.tpose_row].
Proof. vm_compute. reflexivity. Qed.

Example load_missing_file :
  AnimFileEntryMetadataProcessor.load_metadata_list
    Sample.store "/cfg/none.csv" true
  = Raise (FileNotFoundError "/cfg/none.csv").
Proof. vm_compute. reflexivity. Qed.

Example load_short_row :
  AnimFileEntryMetadataProcessor.load_metadata_list
    {["m.csv" := Sample.table ++ [["only_a_name.fbx"]]]} "m.csv" false
  = Raise (KeyError "group").
Proof. vm_compute. reflexivity. Qed.

Example save_sample :
  AnimFileEntryMetadataProcessor.save_metadata_list
    ∅ "out.csv" [Sample.walk_row]
  = Ok {["out.csv" :=
           [["filename"; "group"; "loop"; "root_motion"; "tags"; "orig_path"];
            ["A_Walk.FBX"; "loco"; "True"; "False"; ""; "x"]]]}.
Proof. vm_compute. reflexivity. Qed.

Example template_sample :
  AnimFileEntryMetadataProcessor.build_metadata_list_template_from_folder
    Sample.below "/r" Sample.tree
  = Raise (TypeError "root_motion").
Proof. reflexivity. Qed.

Example template_without_fbx :
  AnimFileEntryMetadataProcessor.build_metadata_list_template_from_folder
    Sample.below "/r" [FsFile "readme.txt"; FsDir "empty" []]
  = Ok [].
Proof. reflexivity. Qed.

Example tpose_entry_sample :
  (org ← SCENE_OP_retarget_batcher.crawl_and_organize Sample.host;
   Ok (AnimMetadataOrganizer.get_tpose_anim_file_entry org))
  = Ok (Some (mkEntry "/r/T.fbx" "T.fbx" "T.fbx" false)).
Proof. vm_compute. reflexivity. Qed.

Example clean_sample :
  clean_group_name_to_be_filename "air/../jump set-1_b.glb" = "airjumpset-1_bglb".
Proof. reflexivity. Qed.

Example execute_without_config :
  SCENE_OP_retarget_batcher.execute
    (mkHost "/mod" "" true "/r" "/out" (fun _ => true) [] Sample.below ∅
            None 0 None 0)
  = ([SetAnimConfigCsv "/mod/synty_anim_metadata.csv";
      Report ["INFO"; "Anim Config not set. Default one has been suggested."]
             None],
     Ok CANCELLED).
Proof. reflexivity. Qed.

(* ===================================================================== *)
(** * Further properties of the code *)
(* ===================================================================== *)

(** ** The organizer *)

Lemma find_tpose_none (l : list AnimFileEntryMetadata) :
  AnimMetadataOrganizer.find_tpose l = None
  <-> Forall (fun x => tags x <> "tpose") l.
Proof.
  induction l as [|x l IH]; cbn [AnimMetadataOrganizer.find_tpose].
  - split; [constructor | reflexivity].
  - destruct (String.eqb_spec (tags x) "tpose") as [Hx|Hx].
    + split; [discriminate|]. intros H. inversion H; subst. contradiction.
    + rewrite IH. split.
      * intros H. constructor; assumption.
      * intros H. inversion H; subst. assumption.
Qed.

(** X1.  After [set_anim_metadata_list], whatever the organizer held
    before, [get_tpose_anim_metadata_entry] returns the first row whose
    tags are exactly ['tpose'], and [None] exactly when no row has
    these tags. *)
Theorem tpose_metadata_entry_is_first_tagged_row
    (self : AnimMetadataOrganizer.t)
    (anim_metadata_list : list AnimFileEntryMetadata) :
  (forall t,
      AnimMetadataOrganizer.get_tpose_anim_metadata_entry
        (AnimMetadataOrganizer.set_anim_metadata_list self anim_metadata_list)
      = Some t
      <-> first_tpose_row anim_metadata_list t)
  /\ (AnimMetadataOrganizer.get_tpose_anim_metadata_entry
        (AnimMetadataOrganizer.set_anim_metadata_list self anim_metadata_list)
      = None
      <-> Forall (fun x => tags x <> "tpose") anim_metadata_list).
Proof.
  unfold AnimMetadataOrganizer.get_tpose_anim_metadata_entry,
    AnimMetadataOrganizer.set_anim_metadata_list.
  cbn [AnimMetadataOrganizer._tpose_metadata]. split.
  - intros t. apply find_tpose_some.
  - apply find_tpose_none.
Qed.

Lemma run_calls_with_metadata_list (calls : list organizer_call) :
  forall self,
    AnimMetadataOrganizer._anim_metadata_list self <> None ->
    exists self',
      run_calls self calls = Ok self'
      /\ AnimMetadataOrganizer._anim_metadata_list self' <> None.
Proof.
  induction calls as [|[l | g e] calls IH]; intros self Hl.
  - exists self. split; [reflexivity | exact Hl].
  - cbn [run_calls]. apply IH. discriminate.
  - cbn [run_calls].
    destruct (AnimMetadataOrganizer._anim_metadata_list self) as [l|] eqn:El;
      [|contradiction].
    destruct (add_to_group_step self l g e El) as (self1 & -> & Hl1 & _).
    cbn. apply IH. rewrite Hl1. discriminate.
Qed.

(** X2.  A sequence of [set_anim_metadata_list] and [add_to_group]
    calls on an organizer that was only constructed succeeds exactly
    when it is empty or starts with [set_anim_metadata_list]; an
    [add_to_group] that comes first raises [AttributeError]. *)
Theorem fresh_organizer_needs_metadata_list (calls : list organizer_call) :
  ((exists self', run_calls AnimMetadataOrganizer.init calls = Ok self')
   <-> calls = [] \/ exists l rest, calls = SetAnimMetadataList l :: rest)
  /\ (forall g e rest,
        calls = AddToGroup g e :: rest ->
        run_calls AnimMetadataOrganizer.init calls
        = Raise (AttributeError "_anim_metadata_list")).
Proof.
  split.
  - split.
    + intros [self' H]. destruct calls as [|[l | g e] rest].
      * now left.
      * right. exists l, rest. reflexivity.
      * discriminate.
    + intros [-> | (l & rest & ->)].
      * exists AnimMetadataOrganizer.init. reflexivity.
      * cbn [run_calls].
        destruct (run_calls_with_metadata_list rest
                    (AnimMetadataOrganizer.set_anim_metadata_list
                       AnimMetadataOrganizer.init l))
          as (self' & H & _); [discriminate|].
        exists self'. exact H.
  - intros g e rest ->. reflexivity.
Qed.

Lemma add_to_group_with_tpose (self : AnimMetadataOrganizer.t)
    (x : AnimFileEntry) (g : string) (e : AnimFileEntry) :
  AnimMetadataOrganizer._tpose_file_entry self = Some x ->
  exists self',
    AnimMetadataOrganizer.add_to_group self g e = Ok self'
    /\ AnimMetadataOrganizer._tpose_file_entry self' = Some x.
Proof.
  intros Hx. unfold AnimMetadataOrganizer.add_to_group. rewrite Hx.
  destruct (ODict.get g (AnimMetadataOrganizer._group_map self));
    cbn; eexists; split; reflexivity.
Qed.

(** X3.  Once an organizer holds a t-pose file, every sequence of
    [set_anim_metadata_list] and [add_to_group] calls succeeds and
    leaves that file in place, also when the metadata list is replaced
    or was never set. *)
Theorem tpose_file_entry_is_kept (calls : list organizer_call) :
  forall (self : AnimMetadataOrganizer.t) (x : AnimFileEntry),
    AnimMetadataOrganizer.get_tpose_anim_file_entry self = Some x ->
    exists self',
      run_calls self calls = Ok self'
      /\ AnimMetadataOrganizer.get_tpose_anim_file_entry self' = Some x.
Proof.
  unfold AnimMetadataOrganizer.get_tpose_anim_file_entry.
  induction calls as [|[l | g e] calls IH]; intros self x Hx.
  - exists self. split; [reflexivity | exact Hx].
  - cbn [run_calls]. apply IH. exact Hx.
  - cbn [run_calls].
    destruct (add_to_group_with_tpose self x g e Hx) as (self1 & -> & Hx1).
    cbn. apply IH. exact Hx1.
Qed.

(** *** The order of the group names *)

Lemma filter_filter_andb {A : Type} (p q : A -> bool) (l : list A) :
  List.filter p (List.filter q l) = List.filter (fun x => q x && p x) l.
Proof.
  induction l as [|x l IH]; [reflexivity|]. cbn [List.filter].
  destruct (q x); cbn [List.filter andb]; [destruct (p x)|]; rewrite IH;
    reflexivity.
Qed.

Lemma in_first_occurrences (names : list string) (x : string) :
  In x (first_occurrences names) <-> In x names.
Proof.
  induction names as [|y names IH]; [reflexivity|].
  cbn [first_occurrences In]. rewrite filter_In, IH, negb_true_iff.
  destruct (String.eqb_spec x y) as [->|Hne].
  - split; [intros _; now left | intros _; now left].
  - split; [intros [H|[H _]]; auto | intros [H|H]; [congruence | auto]].
Qed.

Lemma NoDup_filter_list {A : Type} (p : A -> bool) (l : list A) :
  List.NoDup l -> List.NoDup (List.filter p l).
Proof.
  induction 1 as [|x l Hx _ IH]; cbn [List.filter]; [constructor|].
  destruct (p x); [|exact IH]. constructor; [|exact IH].
  rewrite filter_In. tauto.
Qed.

Lemma NoDup_first_occurrences (names : list string) :
  List.NoDup (first_occurrences names).
Proof.
  induction names as [|y names IH]; cbn [first_occurrences]; constructor.
  - rewrite filter_In, String.eqb_refl. intros [_ H]. discriminate.
  - apply NoDup_filter_list, IH.
Qed.

Lemma add_all_group_names (l : list AnimFileEntryMetadata)
    (calls : list (string * AnimFileEntry)) :
  forall self,
    AnimMetadataOrganizer._anim_metadata_list self = Some l ->
    forall self',
      AnimMetadataOrganizer.add_all self calls = Ok self' ->
      AnimMetadataOrganizer.get_group_names self'
      = AnimMetadataOrganizer.get_group_names self
        ++ List.filter
             (fun g => negb (bool_decide
                               (g ∈ AnimMetadataOrganizer.get_group_names self)))
             (first_occurrences (map fst calls)).
Proof.
  induction calls as [|[g e] calls IH]; intros self Hl self' Hadd.
  - cbn in Hadd. injection Hadd as <-. cbn. rewrite app_nil_r. reflexivity.
  - cbn [AnimMetadataOrganizer.add_all] in Hadd.
    destruct (add_to_group_step self l g e Hl)
      as (self1 & Hstep & Hl1 & _ & _ & _ & Hnames1).
    rewrite Hstep in Hadd. cbn in Hadd.
    rewrite (IH self1 Hl1 self' Hadd), Hnames1.
    cbn [map fst first_occurrences List.filter].
    set (names := AnimMetadataOrganizer.get_group_names self).
    destruct (bool_decide_reflect (g ∈ names)) as [Hg|Hg]; cbn [negb].
    + f_equal. rewrite filter_filter_andb. apply filter_ext. intros x.
      destruct (String.eqb_spec x g) as [->|Hne]; cbn [negb andb].
      * rewrite bool_decide_eq_true_2 by exact Hg. reflexivity.
      * reflexivity.
    + rewrite <- app_assoc. cbn [app]. f_equal. f_equal.
      rewrite filter_filter_andb. apply filter_ext. intros x.
      destruct (String.eqb_spec x g) as [->|Hne]; cbn [negb andb].
      * rewrite bool_decide_eq_true_2; [reflexivity|].
        apply list_elem_of_In, in_or_app. right. now left.
      * destruct (bool_decide_reflect (x ∈ names)) as [Hx|Hx].
        -- rewrite bool_decide_eq_true_2; [reflexivity|].
           apply list_elem_of_In, in_or_app. left.
           apply list_elem_of_In, Hx.
        -- rewrite bool_decide_eq_false_2; [reflexivity|].
           rewrite list_elem_of_In, in_app_iff. cbn [In].
           rewrite <- list_elem_of_In. intros [H|[H|[]]]; congruence.
Qed.

(** X4.  After a sequence of [add_to_group] calls on an organizer
    whose metadata list was just set, [get_group_names] lists the group
    names in the order in which each was first added. *)
Theorem group_names_in_order_of_first_add
    (anim_metadata_list : list AnimFileEntryMetadata)
    (calls : list (string * AnimFileEntry)) :
  exists self',
    AnimMetadataOrganizer.add_all
      (AnimMetadataOrganizer.set_anim_metadata_list
         AnimMetadataOrganizer.init anim_metadata_list) calls = Ok self'
    /\ AnimMetadataOrganizer.get_group_names self'
       = first_occurrences (map fst calls).
Proof.
  destruct (add_all_spec anim_metadata_list calls
              (AnimMetadataOrganizer.set_anim_metadata_list
                 AnimMetadataOrganizer.init anim_metadata_list) eq_refl)
    as (self' & Hall & _).
  exists self'. split; [exact Hall|].
  rewrite (add_all_group_names anim_metadata_list calls
             (AnimMetadataOrganizer.set_anim_metadata_list
                AnimMetadataOrganizer.init anim_metadata_list)
             eq_refl self' Hall).
  cbn [AnimMetadataOrganizer.get_group_names
       AnimMetadataOrganizer.set_anim_metadata_list
       AnimMetadataOrganizer._group_map AnimMetadataOrganizer.init
       ODict.keys map app].
  rewrite <- (filter_ext (fun _ => true)).
  - clear. induction (first_occurrences (map fst calls)) as [|x l IH];
      [reflexivity|]. cbn [List.filter]. rewrite IH. reflexivity.
  - intros x. rewrite bool_decide_eq_false_2; [reflexivity|].
    apply not_elem_of_nil.
Qed.

(** *** The groups partition the added entries *)

Lemma added_under_cons (g : string) (e : AnimFileEntry)
    (rest : list (string * AnimFileEntry)) (h : string) :
  added_under ((g, e) :: rest) h
  = if String.eqb g h then e :: added_under rest h else added_under rest h.
Proof.
  unfold added_under. cbn [List.filter fst].
  destruct (String.eqb g h); reflexivity.
Qed.

Lemma added_under_absent (calls : list (string * AnimFileEntry)) (g : string) :
  ~ In g (map fst calls) -> added_under calls g = [].
Proof.
  intros Hg. destruct (added_under calls g) as [|e l] eqn:E; [reflexivity|].
  exfalso. apply Hg. apply in_map_iff. exists (g, e). split; [reflexivity|].
  apply in_added_under. rewrite E. now left.
Qed.

Lemma filter_ne_absent (g : string) (names : list string) :
  ~ In g names ->
  List.filter (fun y => negb (String.eqb y g)) names = names.
Proof.
  induction names as [|x names IH]; intros Hg; [reflexivity|].
  cbn [List.filter]. destruct (String.eqb_spec x g) as [->|Hne].
  - exfalso. apply Hg. now left.
  - cbn [negb]. rewrite IH; [reflexivity|]. intros H. apply Hg. now right.
Qed.

Lemma flat_map_pull_out {A : Type} (f : string -> list A) (g : string)
    (names : list string) :
  List.NoDup names ->
  In g names ->
  Permutation
    (f g ++ flat_map f (List.filter (fun y => negb (String.eqb y g)) names))
    (flat_map f names).
Proof.
  induction 1 as [|x names Hx Hnd IH]; intros Hg; [destruct Hg|].
  cbn [List.filter flat_map]. destruct (String.eqb_spec x g) as [->|Hne].
  - cbn [negb]. rewrite (filter_ne_absent g names Hx). reflexivity.
  - cbn [negb flat_map]. destruct Hg as [Hg|Hg]; [contradiction|].
    rewrite <- (IH Hg), !app_assoc.
    apply Permutation_app_tail, Permutation_app_comm.
Qed.

Lemma flat_map_agree {A B : Type} (f f' : A -> list B) (l : list A) :
  (forall x, In x l -> f x = f' x) -> flat_map f l = flat_map f' l.
Proof.
  induction l as [|x l IH]; intros H; [reflexivity|]. cbn [flat_map].
  rewrite (H x (or_introl eq_refl)), IH; [reflexivity|].
  intros y Hy. apply H. now right.
Qed.

Lemma flat_map_added_under_skip (g : string) (e : AnimFileEntry)
    (rest : list (string * AnimFileEntry)) (names : list string) :
  ~ In g names ->
  flat_map (added_under ((g, e) :: rest)) names
  = flat_map (added_under rest) names.
Proof.
  intros Hg. apply flat_map_agree. intros h Hh. rewrite added_under_cons.
  destruct (String.eqb_spec g h) as [->|Hne]; [contradiction | reflexivity].
Qed.

(** Filing by name is a partition of the calls. *)
Lemma added_under_partition (calls : list (string * AnimFileEntry)) :
  Permutation
    (flat_map (added_under calls) (first_occurrences (map fst calls)))
    (map snd calls).
Proof.
  induction calls as [|[g e] rest IH]; [reflexivity|].
  cbn [map fst snd first_occurrences flat_map].
  rewrite added_under_cons, String.eqb_refl. cbn [app]. apply perm_skip.
  rewrite flat_map_added_under_skip.
  2:{ rewrite filter_In, String.eqb_refl. intros [_ H]. discriminate. }
  rewrite <- IH.
  destruct (in_dec string_dec g (map fst rest)) as [Hin|Hnin].
  - apply flat_map_pull_out.
    + apply NoDup_first_occurrences.
    + apply in_first_occurrences, Hin.
  - rewrite (added_under_absent rest g Hnin). cbn [app].
    rewrite filter_ne_absent; [reflexivity|].
    rewrite in_first_occurrences. exact Hnin.
Qed.

Lemma organizer_partition
    (anim_metadata_list : list AnimFileEntryMetadata)
    (calls : list (string * AnimFileEntry))
    (self' : AnimMetadataOrganizer.t) :
  AnimMetadataOrganizer.add_all
    (AnimMetadataOrganizer.set_anim_metadata_list
       AnimMetadataOrganizer.init anim_metadata_list) calls = Ok self' ->
  Permutation
    (flat_map
       (AnimMetadataOrganizer.get_anim_file_entries_for_group self')
       (AnimMetadataOrganizer.get_group_names self'))
    (map snd calls).
Proof.
  intros Hall.
  destruct (add_all_spec anim_metadata_list calls
              (AnimMetadataOrganizer.set_anim_metadata_list
                 AnimMetadataOrganizer.init anim_metadata_list) eq_refl)
    as (self'' & Hall' & _ & _ & Hent & _).
  rewrite Hall in Hall'. injection Hall' as <-.
  rewrite (add_all_group_names anim_metadata_list calls
             (AnimMetadataOrganizer.set_anim_metadata_list
                AnimMetadataOrganizer.init anim_metadata_list)
             eq_refl self' Hall).
  cbn [AnimMetadataOrganizer.get_group_names
       AnimMetadataOrganizer.set_anim_metadata_list
       AnimMetadataOrganizer._group_map AnimMetadataOrganizer.init
       ODict.keys map app].
  rewrite <- (filter_ext (fun _ => true)).
  2:{ intros x. rewrite bool_decide_eq_false_2; [reflexivity|].
      apply not_elem_of_nil. }
  replace (List.filter (fun _ : string => true)
             (first_occurrences (map fst calls)))
    with (first_occurrences (map fst calls)).
  2:{ clear. induction (first_occurrences (map fst calls)) as [|x l IH];
        [reflexivity|]. cbn [List.filter]. rewrite <- IH. reflexivity. }
  rewrite (flat_map_agree _ (added_under calls)).
  - apply added_under_partition.
  - intros g _. rewrite Hent. reflexivity.
Qed.

(** X5.  After a sequence of [add_to_group] calls on an organizer
    whose metadata list was just set, the lists of the groups, taken in
    the order of [get_group_names], hold each added entry once for each
    time it was added: nothing is lost and nothing is filed twice. *)
Theorem groups_partition_added_entries
    (anim_metadata_list : list AnimFileEntryMetadata)
    (calls : list (string * AnimFileEntry)) :
  exists self',
    AnimMetadataOrganizer.add_all
      (AnimMetadataOrganizer.set_anim_metadata_list
         AnimMetadataOrganizer.init anim_metadata_list) calls = Ok self'
    /\ Permutation
         (flat_map
            (AnimMetadataOrganizer.get_anim_file_entries_for_group self')
            (AnimMetadataOrganizer.get_group_names self'))
         (map snd calls).
Proof.
  destruct (add_all_spec anim_metadata_list calls
              (AnimMetadataOrganizer.set_anim_metadata_list
                 AnimMetadataOrganizer.init anim_metadata_list) eq_refl)
    as (self' & Hall & _).
  exists self'. split; [exact Hall|].
  apply (organizer_partition anim_metadata_list calls self' Hall).
Qed.

(** ** The crawler *)

(** X6.  For a name as a directory listing gives it, the loop
    inference for the file's full path is the inference for the name
    alone: the folders on the path have no influence. *)
Theorem should_loop_ignores_folder (folder_path name : string) :
  name_ok name = true ->
  AnimFileCrawler.should_loop (OsPath.join folder_path name)
  = AnimFileCrawler.should_loop name.
Proof.
  intros Hok. unfold AnimFileCrawler.should_loop.
  rewrite (basename_join folder_path name Hok).
  unfold name_ok in Hok. apply negb_true_iff in Hok.
  rewrite (basename_no_sep name Hok). reflexivity.
Qed.

Lemma lower_char_not_sep (c : ascii) :
  Ascii.eqb (PyStr.lower_char c) OsPath.sep = Ascii.eqb c OsPath.sep.
Proof. destruct c as [[] [] [] [] [] [] [] []]; reflexivity. Qed.

Lemma rfind_sep_lower (s : string) :
  PyStr.rfind OsPath.sep (PyStr.lower s) = PyStr.rfind OsPath.sep s.
Proof.
  induction s as [|c s IH]; [reflexivity|].
  cbn [PyStr.lower PyStr.rfind]. rewrite IH, lower_char_not_sep. reflexivity.
Qed.

Lemma slice_from_lower (i : nat) (s : string) :
  PyStr.slice_from i (PyStr.lower s) = PyStr.lower (PyStr.slice_from i s).
Proof.
  revert s. induction i as [|i IH]; intros s.
  - destruct s; reflexivity.
  - destruct s as [|c s]; [reflexivity|]. cbn [PyStr.lower PyStr.slice_from].
    apply IH.
Qed.

Lemma basename_lower (p : string) :
  OsPath.basename (PyStr.lower p) = PyStr.lower (OsPath.basename p).
Proof.
  unfold OsPath.basename. rewrite rfind_sep_lower. apply slice_from_lower.
Qed.

(** X7.  Two paths that differ in the case of their letters only get
    the same loop inference. *)
Theorem should_loop_ignores_case (filepath1 filepath2 : string) :
  PyStr.lower filepath1 = PyStr.lower filepath2 ->
  AnimFileCrawler.should_loop filepath1
  = AnimFileCrawler.should_loop filepath2.
Proof.
  intros H. unfold AnimFileCrawler.should_loop.
  rewrite <- !basename_lower, H. reflexivity.
Qed.

Lemma join_listed_name (folder_path name : string) :
  name_ok name = true ->
  OsPath.join folder_path name = (with_sep folder_path ++ name)%string.
Proof.
  unfold name_ok. rewrite negb_true_iff. intros Hok.
  unfold OsPath.join, with_sep.
  rewrite (str_in_false_startswith _ _ Hok).
  destruct (String.eqb folder_path "" || PyStr.endswith folder_path "/");
    [reflexivity|].
  rewrite append_assoc. reflexivity.
Qed.

Lemma with_sep_extends (s : string) :
  exists t, with_sep s = (s ++ t)%string.
Proof.
  unfold with_sep.
  destruct (String.eqb s "" || PyStr.endswith s "/").
  - exists "". clear. induction s as [|c s IH]; [reflexivity|].
    rewrite append_cons, <- IH. reflexivity.
  - exists "/". reflexivity.
Qed.

Lemma file_in_below (folder : string) (contents : list fs_node)
    (df : string * string) :
  file_in folder contents df ->
  forallb node_names_ok contents = true ->
  name_ok (snd df) = true
  /\ exists s, with_sep (fst df) = (with_sep folder ++ s)%string.
Proof.
  induction 1 as [folder contents name Hin
                 | folder contents name children df Hin _ IH]; intros Hok.
  - rewrite forallb_forall in Hok. split; [exact (Hok _ Hin)|].
    exists "". cbn [fst]. clear.
    induction (with_sep folder) as [|c s IH]; [reflexivity|].
    rewrite append_cons, <- IH. reflexivity.
  - rewrite forallb_forall in Hok. specialize (Hok _ Hin).
    cbn [node_names_ok] in Hok. apply andb_true_iff in Hok as [Hname Hch].
    destruct (IH Hch) as [Hdf [s Hs]]. split; [exact Hdf|].
    rewrite Hs, (join_listed_name folder name Hname).
    destruct (with_sep_extends (with_sep folder ++ name)) as [t ->].
    exists (name ++ t ++ s)%string. rewrite !append_assoc. reflexivity.
Qed.

(** X8.  For a tree whose names carry no separator, every entry the
    crawl returns lies below the crawled folder: its full path is the
    folder path, a separator unless the folder path is empty or ends
    with one, then the folders entered and at last the base name;
    and the base name, in lower case, ends with [.fbx]. *)
Theorem crawled_entries_lie_below_folder
    (relpath : string -> string -> string) (self : AnimFileCrawler.t)
    (folder_path : string) (path_contents : list fs_node)
    (entry : AnimFileEntry) :
  forallb node_names_ok path_contents = true ->
  In entry (AnimFileCrawler.crawl_folders_for_anims relpath self
              folder_path path_contents []) ->
  (exists between,
      full_path entry
      = (with_sep folder_path ++ between ++ base_name entry)%string)
  /\ name_ok (base_name entry) = true
  /\ has_suffix ".fbx" (PyStr.lower (base_name entry)).
Proof.
  intros Hok Hin. rewrite crawl_folders_for_anims_eq in Hin. cbn [app] in Hin.
  unfold kept_entries in Hin. apply in_map_iff in Hin as [[d name] [<- Hin]].
  apply filter_In in Hin as [Hin Hw]. cbn [fst snd] in *.
  apply files_below_file_in in Hin.
  destruct (file_in_below _ _ _ Hin Hok) as [Hname [s Hs]]. cbn [fst snd] in *.
  unfold AnimFileCrawler.make_entry. cbn [full_path base_name].
  rewrite (basename_join d name Hname). split; [|split].
  - exists s. rewrite (join_listed_name d name Hname), Hs, append_assoc.
    reflexivity.
  - exact Hname.
  - apply wanted_spec in Hw. apply Hw.
Qed.

(** *** No file is returned twice *)

Lemma node_wf_dir (name : string) (children : list fs_node) :
  node_wf (FsDir name children)
  <-> name_ok name = true /\ name <> ""
      /\ List.NoDup (map node_name children)
      /\ Forall node_wf children.
Proof.
  cbn [node_wf node_name].
  assert (H : (fix all (l : list fs_node) : Prop :=
                 match l with
                 | [] => True
                 | c :: l' => node_wf c /\ all l'
                 end) children <-> Forall node_wf children).
  { induction children as [|c l IH].
    - split; [constructor | trivial].
    - rewrite IH. split.
      + intros [Hc Hl]. constructor; assumption.
      + intros Hcl. inversion Hcl; subst. split; assumption. }
  rewrite H. tauto.
Qed.

Lemma node_wf_name (node : fs_node) :
  node_wf node -> name_ok (node_name node) = true /\ node_name node <> "".
Proof. destruct node; cbn [node_wf]; tauto. Qed.

Lemma append_nil_r (s : string) : (s ++ "")%string = s.
Proof.
  induction s as [|c s IH]; [reflexivity|]. rewrite append_cons, IH.
  reflexivity.
Qed.

Lemma append_inv_head (a b c : string) :
  (a ++ b)%string = (a ++ c)%string -> b = c.
Proof.
  induction a as [|x a IH]; [trivial|]. rewrite !append_cons.
  intros [= H]. apply IH, H.
Qed.

Lemma append_eq_nil (a b : string) :
  (a ++ b)%string = "" -> a = "" /\ b = "".
Proof. destruct a; [auto | rewrite append_cons; discriminate]. Qed.

Lemma suffix_sep_in_name (x n : string) :
  has_suffix "/" (x ++ n) -> n <> "" -> PyStr.str_in "/" n = true.
Proof.
  intros [pre H] Hn. apply str_in_spec. revert pre H.
  induction x as [|c x IH]; intros pre H.
  - rewrite append_nil_l in H. exists pre, "". exact H.
  - rewrite append_cons in H. destruct pre as [|p pre].
    + rewrite append_nil_l in H. injection H as _ H.
      apply append_eq_nil in H as [_ H]. contradiction.
    + rewrite append_cons in H. injection H as _ H. exact (IH pre H).
Qed.

Lemma with_sep_of_child (w name : string) :
  name_ok name = true -> name <> "" ->
  with_sep (w ++ name) = (w ++ name ++ "/")%string.
Proof.
  intros Hok Hne. unfold with_sep.
  destruct (String.eqb_spec (w ++ name) "") as [E|_].
  - apply append_eq_nil in E as [_ E]. contradiction.
  - cbn [orb]. destruct (PyStr.endswith (w ++ name) "/") eqn:Es.
    + apply endswith_spec in Es.
      pose proof (suffix_sep_in_name w name Es Hne) as Hin.
      unfold name_ok in Hok. rewrite Hin in Hok. discriminate.
    + rewrite append_assoc. reflexivity.
Qed.

(** The shape of the paths below a node: the folder, the node's name,
    and then nothing or a separator and more. *)
Lemma paths_of_node_shape (node : fs_node) :
  forall folder p,
    node_wf node ->
    In p (paths_of_node folder node) ->
    exists rest,
      p = (with_sep folder ++ node_name node ++ rest)%string
      /\ (rest = "" \/ PyStr.startswith rest "/" = true).
Proof.
  induction node as [name | name children IH] using fs_node_ind;
    intros folder p Hwf Hin.
  - destruct Hin as [<- | []]. cbn [fst snd node_name].
    exists "". cbn [node_wf node_name] in Hwf.
    rewrite append_nil_r, join_listed_name by tauto. auto.
  - apply node_wf_dir in Hwf as (Hok & Hne & _ & Hch).
    unfold paths_of_node in Hin. cbn [files_of_node] in Hin.
    apply in_map_iff in Hin as [df [<- Hin]].
    apply in_flat_map in Hin as [c [Hc Hdf]].
    rewrite List.Forall_forall in IH, Hch.
    destruct (IH c Hc (OsPath.join folder name)
                (OsPath.join (fst df) (snd df)) (Hch c Hc))
      as [rest [-> _]].
    { unfold paths_of_node.
      apply (in_map (fun df => OsPath.join (fst df) (snd df))). exact Hdf. }
    rewrite (join_listed_name folder name Hok).
    rewrite (with_sep_of_child (with_sep folder) name Hok Hne).
    cbn [node_name].
    exists ("/" ++ node_name c ++ rest)%string. split.
    + rewrite !append_assoc. reflexivity.
    + right. apply startswith_spec. exists (node_name c ++ rest)%string.
      reflexivity.
Qed.

Lemma listed_names_split (n1 n2 r1 r2 : string) :
  name_ok n1 = true -> name_ok n2 = true ->
  (r1 = "" \/ PyStr.startswith r1 "/" = true) ->
  (r2 = "" \/ PyStr.startswith r2 "/" = true) ->
  (n1 ++ r1)%string = (n2 ++ r2)%string ->
  n1 = n2.
Proof.
  unfold name_ok. rewrite !negb_true_iff.
  assert (Hhead : forall c s r,
             PyStr.str_in "/" (String c s) = false ->
             (r = "" \/ PyStr.startswith r "/" = true) ->
             r <> String c (s ++ r)%string /\
             forall t, r = String c t -> False).
  { intros c s r Hcs Hr. apply str_in_false_startswith in Hcs.
    cbn in Hcs. assert (Hc : Ascii.eqb c "/" = false)
      by (destruct s; cbn in Hcs; rewrite andb_true_r in Hcs; exact Hcs).
    assert (forall t, r = String c t -> False).
    { intros t ->. destruct Hr as [Hr|Hr]; [discriminate|].
      cbn in Hr. destruct t; cbn in Hr; rewrite andb_true_r in Hr;
        congruence. }
    split; [|assumption]. intros E. eapply H. exact E. }
  revert n2. induction n1 as [|c n1 IH]; intros n2 H1 H2 Hr1 Hr2 E.
  - destruct n2 as [|c n2]; [reflexivity|]. exfalso.
    rewrite append_nil_l, append_cons in E.
    exact (proj2 (Hhead c n2 r1 H2 Hr1) _ E).
  - destruct n2 as [|d n2].
    + exfalso. rewrite append_nil_l, append_cons in E. symmetry in E.
      exact (proj2 (Hhead c n1 r2 H1 Hr2) _ E).
    + rewrite !append_cons in E. injection E as -> E. f_equal.
      apply (IH n2); try assumption.
      * apply (str_in_false_tail _ _ _ H1).
      * apply (str_in_false_tail _ _ _ H2).
Qed.

Lemma paths_of_siblings_differ (folder : string) (c1 c2 : fs_node)
    (p : string) :
  node_wf c1 -> node_wf c2 -> node_name c1 <> node_name c2 ->
  In p (paths_of_node folder c1) -> In p (paths_of_node folder c2) -> False.
Proof.
  intros Hw1 Hw2 Hne H1 H2.
  destruct (paths_of_node_shape c1 folder p Hw1 H1) as [r1 [E1 Hr1]].
  destruct (paths_of_node_shape c2 folder p Hw2 H2) as [r2 [E2 Hr2]].
  rewrite E1 in E2. apply append_inv_head in E2.
  apply Hne.
  exact (listed_names_split _ _ r1 r2 (proj1 (node_wf_name c1 Hw1))
           (proj1 (node_wf_name c2 Hw2)) Hr1 Hr2 E2).
Qed.

Lemma paths_of_listing_nodup (folder : string) (contents : list fs_node) :
  List.NoDup (map node_name contents) ->
  Forall node_wf contents ->
  Forall (fun node => forall folder, List.NoDup (paths_of_node folder node))
         contents ->
  List.NoDup (flat_map (paths_of_node folder) contents).
Proof.
  induction contents as [|c rest IH]; intros Hnames Hwf Hnd;
    [constructor|].
  cbn [map] in Hnames. inversion Hnames as [|? ? Hc Hrest]; subst.
  inversion Hwf as [|? ? Hwc Hwrest]; subst.
  inversion Hnd as [|? ? Hndc Hndrest]; subst.
  cbn [flat_map].
  apply List.NoDup_app; [apply Hndc | apply (IH Hrest Hwrest Hndrest) |].
  intros p Hp1 Hp2. apply in_flat_map in Hp2 as [c' [Hc' Hp2]].
  rewrite List.Forall_forall in Hwrest.
  apply (paths_of_siblings_differ folder c c' p Hwc (Hwrest c' Hc')); auto.
  intros E. apply Hc. rewrite E. apply in_map, Hc'.
Qed.

Lemma paths_of_node_nodup (node : fs_node) :
  node_wf node -> forall folder, List.NoDup (paths_of_node folder node).
Proof.
  induction node as [name | name children IH] using fs_node_ind;
    intros Hwf folder.
  - cbn. constructor; [intros [] | constructor].
  - apply node_wf_dir in Hwf as (_ & _ & Hnames & Hch).
    unfold paths_of_node. cbn [files_of_node]. rewrite flat_map_concat_map.
    rewrite concat_map, map_map, <- flat_map_concat_map.
    apply (paths_of_listing_nodup (OsPath.join folder name) children
             Hnames Hch).
    rewrite List.Forall_forall in IH, Hch. apply List.Forall_forall.
    intros c Hc. apply IH; auto.
Qed.

Lemma NoDup_map_filter {A B : Type} (f : A -> B) (p : A -> bool)
    (l : list A) :
  List.NoDup (map f l) -> List.NoDup (map f (List.filter p l)).
Proof.
  induction l as [|x l IH]; cbn [map List.filter]; intros H; [constructor|].
  inversion H as [|? ? Hx Hl]; subst. destruct (p x); [|apply IH, Hl].
  cbn [map]. constructor; [|apply IH, Hl].
  rewrite in_map_iff in *. intros [y [E Hy]]. apply Hx. exists y.
  apply filter_In in Hy as [Hy _]. auto.
Qed.

(** X9.  For a tree as a file system holds it (names without
    separator and not empty, no two entries of a directory with the
    same name), the crawl returns no file twice: the full paths of the
    entries are pairwise distinct, also when files in different
    folders share their base name. *)
Theorem crawled_paths_are_distinct
    (relpath : string -> string -> string) (self : AnimFileCrawler.t)
    (folder_path : string) (path_contents : list fs_node) :
  listing_wf path_contents ->
  List.NoDup
    (map full_path
         (AnimFileCrawler.crawl_folders_for_anims relpath self
            folder_path path_contents [])).
Proof.
  intros [Hnames Hwf]. rewrite crawl_folders_for_anims_eq. cbn [app].
  unfold kept_entries. rewrite map_map.
  cbn [AnimFileCrawler.make_entry full_path].
  apply (NoDup_map_filter (fun df => OsPath.join (fst df) (snd df))).
  unfold files_below. rewrite flat_map_concat_map, concat_map, map_map.
  rewrite <- flat_map_concat_map.
  apply (paths_of_listing_nodup folder_path path_contents Hnames Hwf).
  apply List.Forall_forall. intros c Hc. apply paths_of_node_nodup.
  rewrite List.Forall_forall in Hwf. auto.
Qed.

(** ** The metadata processor *)

Lemma load_rows_eq (rows : list (gmap string string)) (ignore : bool) :
  forall acc,
    AnimFileEntryMetadataProcessor.load_rows rows ignore acc
    = (parse_rows rows
       ≫= fun ms => Ok (acc ++ List.filter (kept_row ignore) ms)).
Proof.
  induction rows as [|row rows IH]; intros acc.
  - cbn. rewrite app_nil_r. reflexivity.
  - cbn [AnimFileEntryMetadataProcessor.load_rows parse_rows].
    destruct (AnimFileEntryMetadataProcessor.metadata_of_row row) as [m|e];
      [|reflexivity].
    cbn [mbind result_bind]. fold (kept_row ignore m).
    destruct (kept_row ignore m) eqn:Hk; rewrite IH;
      destruct (parse_rows rows) as [ms|e]; cbn [mbind result_bind];
      try reflexivity; cbn [List.filter]; rewrite Hk;
      [rewrite <- app_assoc|]; reflexivity.
Qed.

Lemma filter_all_kept (ms : list AnimFileEntryMetadata) :
  List.filter (kept_row false) ms = ms.
Proof.
  induction ms as [|m ms IH]; [reflexivity|]. cbn. rewrite IH. reflexivity.
Qed.

(** X10.  Loading with [ignore_root_motion] set gives what loading
    without it gives, less the rows whose [root_motion] is set: the
    same exception when a row cannot be read, also when that row would
    have been ignored. *)
Theorem load_ignoring_root_motion_filters
    (fs : gmap string (list (list string))) (csv_filename : string) :
  AnimFileEntryMetadataProcessor.load_metadata_list fs csv_filename true
  = (AnimFileEntryMetadataProcessor.load_metadata_list fs csv_filename false
     ≫= fun l => Ok (List.filter (fun m => negb (root_motion m)) l)).
Proof.
  unfold AnimFileEntryMetadataProcessor.load_metadata_list.
  destruct (fs !! csv_filename) as [table|]; [|reflexivity].
  rewrite !load_rows_eq.
  destruct (parse_rows (Csv.DictReader table)) as [ms|e]; [|reflexivity].
  cbn [mbind result_bind app]. rewrite filter_all_kept. reflexivity.
Qed.

(** X11.  A file that holds no row with cells after its first row (an
    empty file, a header alone, blank lines) loads as the empty list,
    whatever the header says. *)
Theorem load_without_data_rows
    (fs : gmap string (list (list string))) (csv_filename : string)
    (ignore_root_motion : bool) (table : list (list string)) :
  fs !! csv_filename = Some table ->
  Forall (fun row => row = []) (tail table) ->
  AnimFileEntryMetadataProcessor.load_metadata_list
    fs csv_filename ignore_root_motion = Ok [].
Proof.
  intros Hfs Hblank.
  unfold AnimFileEntryMetadataProcessor.load_metadata_list. rewrite Hfs.
  destruct table as [|header rows]; [reflexivity|].
  cbn [tail] in Hblank. cbn [Csv.DictReader]. clear Hfs.
  replace (List.filter (fun row => negb (Csv.is_blank row)) rows) with
    (@nil (list string)); [reflexivity|].
  induction Hblank as [|row rows -> _ IH]; [reflexivity|]. exact IH.
Qed.

(** *** Rows as dicts *)

Lemma fold_insert_lookup_none (l : list (string * string)) :
  forall (m : gmap string string) (k : string),
    fold_left (fun d kv => <[fst kv := snd kv]> d) l m !! k = None
    <-> m !! k = None /\ ~ In k (map fst l).
Proof.
  induction l as [|[a b] l IH]; intros m k; cbn [fold_left map fst snd In].
  - tauto.
  - rewrite IH, lookup_insert_None. split.
    + intros [[Hm Hne] Hl]. split; [exact Hm|]. intros [H|H]; auto.
    + intros [Hm Hl]. repeat split; auto.
Qed.

Lemma in_zip_keys (header row : list string) (k : string) :
  In k (map fst (zip header row)) -> In k header.
Proof.
  revert row. induction header as [|h header IH]; intros row; [intros []|].
  destruct row as [|c row]; [intros []|]. cbn [zip zip_with map fst In].
  intros [H|H]; [now left | right; exact (IH row H)].
Qed.

Lemma in_zip_keys_covered (header row : list string) (k : string) :
  In k header -> List.length header <= List.length row ->
  In k (map fst (zip header row)).
Proof.
  revert row. induction header as [|h header IH]; intros row; [intros []|].
  destruct row as [|c row]; cbn [List.length]; [lia|].
  cbn [zip zip_with map fst In]. intros [H|H] Hlen; [now left|].
  right. apply IH; [exact H | lia].
Qed.

Lemma dict_of_zip_absent (header row : list string) (k : string) :
  ~ In k header -> Csv.dict_of_zip header row !! k = None.
Proof.
  intros Hk. unfold Csv.dict_of_zip. apply fold_insert_lookup_none.
  split; [apply lookup_empty|]. intros H. apply Hk.
  exact (in_zip_keys header row k H).
Qed.

Lemma dict_of_zip_present (header row : list string) (k : string) :
  In k header -> List.length header <= List.length row ->
  exists v, getitem (Csv.dict_of_zip header row) k = Ok v.
Proof.
  intros Hk Hlen. unfold getitem.
  destruct (Csv.dict_of_zip header row !! k) as [v|] eqn:E;
    [exists v; reflexivity|].
  exfalso. unfold Csv.dict_of_zip in E.
  apply fold_insert_lookup_none in E as [_ E]. apply E.
  exact (in_zip_keys_covered header row k Hk Hlen).
Qed.

Lemma getitem_absent (header row : list string) (k : string) :
  ~ In k header ->
  getitem (Csv.dict_of_zip header row) k = Raise (KeyError k).
Proof.
  intros Hk. unfold getitem. rewrite (dict_of_zip_absent header row k Hk).
  reflexivity.
Qed.

Ltac read_column Hfind header row Hlen k :=
  let Hk := fresh "Hk" in
  destruct (bool_decide_reflect (k ∈ header)) as [Hk|Hk];
  cbn [negb] in Hfind;
  [ apply list_elem_of_In in Hk;
    destruct (dict_of_zip_present header row k Hk Hlen) as [? ->];
    cbn [mbind result_bind]; clear Hk
  | rewrite list_elem_of_In in Hk; injection Hfind as <-;
    rewrite (getitem_absent header row _ Hk); reflexivity ].

Lemma metadata_of_row_missing_column (header row : list string)
    (key : string) :
  first_missing_column header = Some key ->
  List.length header <= List.length row ->
  AnimFileEntryMetadataProcessor.metadata_of_row
    (Csv.dict_of_zip header row) = Raise (KeyError key).
Proof.
  unfold first_missing_column, AnimFileEntryMetadataProcessor.fieldnames,
    AnimFileEntryMetadataProcessor.metadata_of_row.
  intros Hfind Hlen. cbn [List.find] in Hfind.
  read_column Hfind header row Hlen "filename".
  read_column Hfind header row Hlen "group".
  read_column Hfind header row Hlen "loop".
  read_column Hfind header row Hlen "root_motion".
  read_column Hfind header row Hlen "tags".
  read_column Hfind header row Hlen "orig_path".
  discriminate.
Qed.

(** X12.  When the header lacks one of the six columns, the load
    raises [KeyError] for the first missing column, in the order
    filename, group, loop, root_motion, tags, orig_path, as soon as
    there is a row with cells (here: one that has a cell for each
    header column). *)
Theorem load_with_missing_column
    (fs : gmap string (list (list string))) (csv_filename : string)
    (ignore_root_motion : bool) (header : list string)
    (rows : list (list string)) (key : string)
    (row : list string) (more : list (list string)) :
  fs !! csv_filename = Some (header :: rows) ->
  first_missing_column header = Some key ->
  List.filter (fun row => negb (Csv.is_blank row)) rows = row :: more ->
  List.length header <= List.length row ->
  AnimFileEntryMetadataProcessor.load_metadata_list
    fs csv_filename ignore_root_motion = Raise (KeyError key).
Proof.
  intros Hfs Hmiss Hrows Hlen.
  unfold AnimFileEntryMetadataProcessor.load_metadata_list. rewrite Hfs.
  cbn [Csv.DictReader]. rewrite Hrows.
  cbn [map AnimFileEntryMetadataProcessor.load_rows].
  rewrite (metadata_of_row_missing_column header row key Hmiss Hlen).
  reflexivity.
Qed.





(** *** Saving *)







(** ** The batch operator *)



Lemma clean_app (a b : string) :
  clean_group_name_to_be_filename (a ++ b)
  = (clean_group_name_to_be_filename a
     ++ clean_group_name_to_be_filename b)%string.
Proof.
  induction a as [|c a IH]; [reflexivity|].
  rewrite append_cons. cbn [clean_group_name_to_be_filename].
  destruct (in_filename_class c); cbn [negb]; rewrite IH; reflexivity.
Qed.

(** X18.  The export path of a group depends on the characters of the
    class [a-zA-Z0-9_-] in its name only: a group name with one more
    character outside the class, anywhere, is exported to the same
    file, so two such groups overwrite each other's export. *)
Theorem export_path_ignores_unsafe_character
    (export_path before after : string) (c : ascii) :
  in_filename_class c = false ->
  SCENE_OP_retarget_batcher.full_export_path export_path
    (before ++ String c after)
  = SCENE_OP_retarget_batcher.full_export_path export_path
      (before ++ after).
Proof.
  intros Hc. unfold SCENE_OP_retarget_batcher.full_export_path.
  rewrite !clean_app. cbn [clean_group_name_to_be_filename].
  rewrite Hc. reflexivity.
Qed.

(** X19.  A file entry that loops always gets an NLA track name that
    ends with [-loop], and the suffix is added only when the file's
    name without extension does not already end with it. *)
Theorem looping_anim_name_ends_with_loop (anim_file_entry : AnimFileEntry) :
  should_loop anim_file_entry = true ->
  let base_file_name :=
    OsPath.splitext_root (OsPath.basename (full_path anim_file_entry)) in
  has_suffix "-loop" (SCENE_OP_retarget_batcher.anim_name_of anim_file_entry)
  /\ ((has_suffix "-loop" base_file_name
       /\ SCENE_OP_retarget_batcher.anim_name_of anim_file_entry
          = base_file_name)
      \/ (~ has_suffix "-loop" base_file_name
          /\ SCENE_OP_retarget_batcher.anim_name_of anim_file_entry
             = (base_file_name ++ "-loop")%string)).
Proof.
  intros Hloop base. unfold SCENE_OP_retarget_batcher.anim_name_of.
  fold base. rewrite Hloop. cbn [andb].
  destruct (PyStr.endswith base "-loop") eqn:He; cbn [negb].
  - apply endswith_spec in He. split; [exact He|]. left. auto.
  - split; [exists base; reflexivity|]. right. split; [|reflexivity].
    rewrite <- endswith_spec, He. discriminate.
Qed.

Lemma crawl_and_organize_ok (h : Host) (org : AnimMetadataOrganizer.t) :
  SCENE_OP_retarget_batcher.crawl_and_organize h = Ok org ->
  exists l,
    AnimFileEntryMetadataProcessor.load_metadata_list (files h)
      (fix_synty_with_arp_anim_config_csv h)
      (fix_synty_with_arp_ignore_root_motion h) = Ok l
    /\ AnimMetadataOrganizer.add_all
         (AnimMetadataOrganizer.set_anim_metadata_list
            AnimMetadataOrganizer.init l)
         (matched_calls l (crawled_entries h)) = Ok org.
Proof.
  rewrite crawl_and_organize_eq.
  destruct (AnimFileEntryMetadataProcessor.load_metadata_list _ _ _)
    as [l|e]; [|discriminate].
  cbn [mbind result_bind]. rewrite (organize_entries_eq l) by reflexivity.
  intros H. exists l. auto.
Qed.

(** X20.  After the operator has crawled and organized, a group holds
    exactly the crawled entries whose metadata row names that group,
    each with [should_loop] replaced by the row's [loop]: the loop
    inference of the crawler does not reach the groups. *)
Theorem organized_entries_follow_metadata (h : Host)
    (org : AnimMetadataOrganizer.t) :
  SCENE_OP_retarget_batcher.crawl_and_organize h = Ok org ->
  exists l,
    AnimFileEntryMetadataProcessor.load_metadata_list (files h)
      (fix_synty_with_arp_anim_config_csv h)
      (fix_synty_with_arp_ignore_root_motion h) = Ok l
    /\ forall g e,
         In e (AnimMetadataOrganizer.get_anim_file_entries_for_group org g)
         <-> exists e0 m,
               In e0 (crawled_entries h)
               /\ AnimMetadataOrganizer.find_metadata l e0 = Some m
               /\ group m = g
               /\ full_path e = full_path e0
               /\ relative_path e = relative_path e0
               /\ base_name e = base_name e0
               /\ should_loop e = loop m.
Proof.
  intros Hco. destruct (crawl_and_organize_ok h org Hco) as (l & Hload & Hadd).
  exists l. split; [exact Hload|].
  destruct (add_all_spec l (matched_calls l (crawled_entries h))
              (AnimMetadataOrganizer.set_anim_metadata_list
                 AnimMetadataOrganizer.init l) eq_refl)
    as (org' & Hadd' & _ & _ & Hent & _).
  rewrite Hadd in Hadd'. injection Hadd' as <-.
  intros g e. rewrite Hent.
  cbn [app AnimMetadataOrganizer.get_anim_file_entries_for_group
       AnimMetadataOrganizer.set_anim_metadata_list
       AnimMetadataOrganizer._group_map AnimMetadataOrganizer.init ODict.get].
  rewrite in_added_under, in_matched_calls. split.
  - intros (e0 & m & He0 & Hm & -> & ->). exists e0, m.
    repeat split; auto.
  - intros (e0 & m & He0 & Hm & <- & Hf & Hr & Hb & Hs). exists e0, m.
    repeat split; auto. destruct e as [f r b s]. cbn in *. subst.
    reflexivity.
Qed.

Lemma find_metadata_with_loop (l : list AnimFileEntryMetadata)
    (e : AnimFileEntry) (m : AnimFileEntryMetadata) :
  AnimMetadataOrganizer.find_metadata l (with_loop e m)
  = AnimMetadataOrganizer.find_metadata l e.
Proof.
  induction l as [|x l IH]; [reflexivity|].
  cbn [AnimMetadataOrganizer.find_metadata with_loop base_name].
  rewrite IH. reflexivity.
Qed.

(** X21.  In the operator, where only entries with a metadata row are
    filed, the t-pose file is sound: when there is one, it is a crawled
    entry whose first matching row is the first row tagged ['tpose'];
    and there is none when no row is tagged. *)
Theorem operator_tpose_file_is_sound (h : Host)
    (org : AnimMetadataOrganizer.t) :
  SCENE_OP_retarget_batcher.crawl_and_organize h = Ok org ->
  exists l,
    AnimFileEntryMetadataProcessor.load_metadata_list (files h)
      (fix_synty_with_arp_anim_config_csv h)
      (fix_synty_with_arp_ignore_root_motion h) = Ok l
    /\ (forall e,
          AnimMetadataOrganizer.get_tpose_anim_file_entry org = Some e ->
          exists e0 t,
            In e0 (crawled_entries h)
            /\ full_path e = full_path e0
            /\ first_tpose_row l t
            /\ first_match l e0 t)
    /\ (Forall (fun x => tags x <> "tpose") l ->
        AnimMetadataOrganizer.get_tpose_anim_file_entry org = None).
Proof.
  intros Hco. destruct (crawl_and_organize_ok h org Hco) as (l & Hload & Hadd).
  exists l. split; [exact Hload|].
  destruct (tpose_entry_of_matched_calls l
              (matched_calls l (crawled_entries h)))
    as (org' & Hadd' & _ & Hsome & Hnone & _).
  { intros g e Hin. apply in_matched_calls in Hin
      as (e0 & m & _ & Hm & _ & ->).
    rewrite find_metadata_with_loop, Hm. discriminate. }
  rewrite Hadd in Hadd'. injection Hadd' as <-. split.
  - intros e He. destruct (Hsome e He) as (g & t & Hin & Ht & Hmatch).
    apply in_matched_calls in Hin as (e0 & m & He0 & Hm & _ & ->).
    exists e0, t. split; [exact He0|]. split; [reflexivity|].
    split; [exact Ht|]. exact Hmatch.
  - intros Hno. apply Hnone, find_tpose_none, Hno.
Qed.

Lemma filter_push_group_block (org : AnimMetadataOrganizer.t)
    (export_path g : string) :
  List.filter is_push_event (group_block org export_path g)
  = map push_event
        (AnimMetadataOrganizer.get_anim_file_entries_for_group org g).
Proof.
  unfold group_block. cbn [app List.filter is_push_event].
  induction (AnimMetadataOrganizer.get_anim_file_entries_for_group org g)
    as [|e l IH]; [reflexivity|].
  cbn [map app List.filter push_event is_push_event]. rewrite IH.
  reflexivity.
Qed.

Lemma filter_export_group_block (org : AnimMetadataOrganizer.t)
    (export_path g : string) :
  List.filter is_export_event (group_block org export_path g)
  = [ExportSceneGltf
       (SCENE_OP_retarget_batcher.full_export_path export_path g)].
Proof.
  unfold group_block. cbn [app List.filter is_export_event].
  induction (AnimMetadataOrganizer.get_anim_file_entries_for_group org g)
    as [|e l IH]; [reflexivity|].
  cbn [map app List.filter push_event is_export_event]. exact IH.
Qed.

Lemma filter_flat_map {A B : Type} (p : B -> bool) (f : A -> list B)
    (l : list A) :
  List.filter p (flat_map f l) = flat_map (fun x => List.filter p (f x)) l.
Proof.
  induction l as [|x l IH]; [reflexivity|]. cbn [flat_map].
  rewrite List.filter_app, IH. reflexivity.
Qed.

Lemma filter_none {A : Type} (p : A -> bool) (l : list A) :
  (forall x, In x l -> p x = false) -> List.filter p l = [].
Proof.
  induction l as [|x l IH]; intros H; [reflexivity|]. cbn [List.filter].
  rewrite (H x (or_introl eq_refl)). apply IH. intros y Hy. apply H.
  now right.
Qed.

Lemma flat_map_map {A B C : Type} (f : B -> C) (g : A -> list B)
    (l : list A) :
  flat_map (fun x => map f (g x)) l = map f (flat_map g l).
Proof.
  induction l as [|x l IH]; [reflexivity|]. cbn [flat_map].
  rewrite map_app, IH. reflexivity.
Qed.

(** X22.  In a run of [execute] that finishes, the files imported and
    retargeted are, counted with repetition, the crawled entries that
    have a metadata row, each once, and there is one export for each
    group name, in the order of the group names. *)
Theorem finished_run_pushes_each_matched_file_once (h : Host)
    (trace : list event) :
  SCENE_OP_retarget_batcher.execute h = (trace, Ok FINISHED) ->
  exists l org,
    AnimFileEntryMetadataProcessor.load_metadata_list (files h)
      (fix_synty_with_arp_anim_config_csv h)
      (fix_synty_with_arp_ignore_root_motion h) = Ok l
    /\ SCENE_OP_retarget_batcher.crawl_and_organize h = Ok org
    /\ Permutation
         (List.filter is_push_event trace)
         (map push_event (map snd (matched_calls l (crawled_entries h))))
    /\ List.filter is_export_event trace
       = map (fun g => ExportSceneGltf
                         (SCENE_OP_retarget_batcher.full_export_path
                            (fix_synty_with_arp_export_path h) g))
             (AnimMetadataOrganizer.get_group_names org).
Proof.
  intros Hrun.
  destruct (execute_finished h trace Hrun)
    as (l & org & setup & Hload & Hadd & Hco & Hsetup & ->).
  exists l, org. split; [exact Hload|]. split; [exact Hco|].
  rewrite !List.filter_app, !filter_flat_map.
  assert (Hs1 : List.filter is_push_event setup = []).
  { apply filter_none. intros ev Hev. rewrite forallb_forall in Hsetup.
    specialize (Hsetup ev Hev). destruct ev; try discriminate; reflexivity. }
  assert (Hs2 : List.filter is_export_event setup = []).
  { apply filter_none. intros ev Hev. rewrite forallb_forall in Hsetup.
    specialize (Hsetup ev Hev). destruct ev; try discriminate; reflexivity. }
  rewrite Hs1, Hs2. cbn [app List.filter is_push_event is_export_event].
  rewrite !app_nil_r. split.
  - rewrite (flat_map_agree _
               (fun g => map push_event
                           (AnimMetadataOrganizer.get_anim_file_entries_for_group
                              org g)))
      by (intros g _; apply filter_push_group_block).
    rewrite flat_map_map. apply Permutation_map.
    apply (organizer_partition l _ org Hadd).
  - rewrite (flat_map_agree _
               (fun g => [ExportSceneGltf
                            (SCENE_OP_retarget_batcher.full_export_path
                               (fix_synty_with_arp_export_path h) g)]))
      by (intros g _; apply filter_export_group_block).
    clear. induction (AnimMetadataOrganizer.get_group_names org)
      as [|g l IH]; [reflexivity|].
    cbn [flat_map map app]. rewrite IH. reflexivity.
Qed.


(** ** Registration *)


(** ** The further properties at sample inputs *)

(** X3 on an organizer that holds a t-pose file, through two
    [add_to_group] calls and a new metadata list. *)
Lemma tpose_file_entry_is_kept_witness :
  AnimMetadataOrganizer.get_tpose_anim_file_entry Sample4.with_tpose_file
  = Some Sample.walk_entry
  /\ exists self',
       run_calls Sample4.with_tpose_file Sample4.calls = Ok self'
       /\ AnimMetadataOrganizer.get_tpose_anim_file_entry self'
          = Some Sample.walk_entry.
Proof.
  split; [reflexivity|].
  apply (tpose_file_entry_is_kept Sample4.calls Sample4.with_tpose_file
           Sample.walk_entry eq_refl).
Defined.

(** X6 on a file below a folder whose name holds a looping word. *)
Lemma should_loop_ignores_folder_witness :
  name_ok "Attack.fbx" = true
  /\ AnimFileCrawler.should_loop (OsPath.join "/r/walk" "Attack.fbx")
     = AnimFileCrawler.should_loop "Attack.fbx".
Proof.
  split; [reflexivity|].
  apply (should_loop_ignores_folder "/r/walk" "Attack.fbx" eq_refl).
Defined.

(** X7 on a path in upper and in lower case. *)
Lemma should_loop_ignores_case_witness :
  PyStr.lower "/R/A_WALK.FBX" = PyStr.lower "/r/a_walk.fbx"
  /\ AnimFileCrawler.should_loop "/R/A_WALK.FBX"
     = AnimFileCrawler.should_loop "/r/a_walk.fbx".
Proof.
  split; [reflexivity|].
  apply (should_loop_ignores_case "/R/A_WALK.FBX" "/r/a_walk.fbx" eq_refl).
Defined.

(** X8 on the sample tree, for the file two folders down. *)
Lemma crawled_entries_lie_below_folder_witness :
  forallb node_names_ok Sample.tree = true
  /\ In (mkEntry "/r/sub/deep/Jump.fbx" "sub/deep/Jump.fbx" "Jump.fbx" false)
        (AnimFileCrawler.crawl_folders_for_anims Sample.below
           (AnimFileCrawler.init "/r") "/r" Sample.tree [])
  /\ exists between,
       "/r/sub/deep/Jump.fbx" = (with_sep "/r" ++ between ++ "Jump.fbx")%string.
Proof.
  assert (Hin : In (mkEntry "/r/sub/deep/Jump.fbx" "sub/deep/Jump.fbx"
                            "Jump.fbx" false)
                   (AnimFileCrawler.crawl_folders_for_anims Sample.below
                      (AnimFileCrawler.init "/r") "/r" Sample.tree []))
    by (right; right; left; reflexivity).
  split; [reflexivity|]. split; [exact Hin|].
  exact (proj1 (crawled_entries_lie_below_folder Sample.below
                  (AnimFileCrawler.init "/r") "/r" Sample.tree _
                  eq_refl Hin)).
Defined.

Ltac distinct_names :=
  cbn;
  repeat (apply List.NoDup_cons;
          [let H := fresh in
           intros H; cbn in H;
           repeat (destruct H as [H|H]; [discriminate|]); exact H|]);
  apply List.NoDup_nil.

Ltac wf_node :=
  lazymatch goal with
  | |- node_wf (FsFile _) =>
      cbn; repeat split; first [reflexivity | discriminate | exact I]
  | |- node_wf (FsDir _ _) =>
      apply node_wf_dir;
      split; [reflexivity|];
      split; [discriminate|];
      split; [distinct_names | wf_list]
  end
with wf_list :=
  lazymatch goal with
  | |- Forall _ [] => apply List.Forall_nil
  | |- Forall _ (_ :: _) => apply List.Forall_cons; [wf_node | wf_list]
  end.

Lemma sample3_tree_wf : listing_wf Sample3.tree.
Proof. split; [distinct_names | unfold Sample3.tree; wf_list]. Defined.

(** X9 on a tree in which four files share their base name. *)
Lemma crawled_paths_are_distinct_witness :
  listing_wf Sample3.tree
  /\ map base_name
         (AnimFileCrawler.crawl_folders_for_anims Sample.below
            (AnimFileCrawler.init "/r") "/r" Sample3.tree [])
     = ["Walk.fbx"; "Walk.fbx"; "Walk.fbx"; "Walk.fbx"]
  /\ List.NoDup
       (map full_path
            (AnimFileCrawler.crawl_folders_for_anims Sample.below
               (AnimFileCrawler.init "/r") "/r" Sample3.tree [])).
Proof.
  split; [exact sample3_tree_wf|]. split; [reflexivity|].
  apply (crawled_paths_are_distinct Sample.below (AnimFileCrawler.init "/r")
           "/r" Sample3.tree sample3_tree_wf).
Defined.

(** X11 on a file that holds a header without the six columns and two
    blank lines. *)
Lemma load_without_data_rows_witness :
  AnimFileEntryMetadataProcessor.load_metadata_list
    {["e.csv" := [["name"; "bundle"]; []; []]]} "e.csv" true
  = Ok [].
Proof.
  apply (load_without_data_rows
           {["e.csv" := [["name"; "bundle"]; []; []]]} "e.csv" true
           [["name"; "bundle"]; []; []]).
  - vm_compute. reflexivity.
  - repeat constructor.
Defined.

(** X12 on a table without the [group] column. *)
Lemma load_with_missing_column_witness :
  first_missing_column ["filename"; "loop"; "root_motion"; "tags"; "orig_path"]
  = Some "group"
  /\ AnimFileEntryMetadataProcessor.load_metadata_list
       {["g.csv" := Sample2.table_without_group]} "g.csv" false
     = Raise (KeyError "group").
Proof.
  split; [reflexivity|].
  apply (load_with_missing_column
           {["g.csv" := Sample2.table_without_group]} "g.csv" false
           ["filename"; "loop"; "root_motion"; "tags"; "orig_path"]
           [[]; ["A_Walk.FBX"; "TRUE"; "FALSE"; ""; "x"]]
           "group"
           ["A_Walk.FBX"; "TRUE"; "FALSE"; ""; "x"] []).
  - vm_compute. reflexivity.
  - reflexivity.
  - reflexivity.
  - cbn. lia.
Defined.




(** X18 on the group names [air/jump] and [airjump]. *)
Lemma export_path_ignores_unsafe_character_witness :
  in_filename_class "/"%char = false
  /\ SCENE_OP_retarget_batcher.full_export_path "/out" "air/jump"
     = SCENE_OP_retarget_batcher.full_export_path "/out" "airjump".
Proof.
  split; [reflexivity|].
  apply (export_path_ignores_unsafe_character "/out" "air" "jump" "/"%char
           eq_refl).
Defined.

(** X19 on a looping entry whose file name already ends with [-loop]. *)
Lemma looping_anim_name_ends_with_loop_witness :
  should_loop Sample2.looping_entry = true
  /\ has_suffix "-loop"
       (SCENE_OP_retarget_batcher.anim_name_of Sample2.looping_entry)
  /\ SCENE_OP_retarget_batcher.anim_name_of Sample2.looping_entry
     = "A_Walk-loop".
Proof.
  split; [reflexivity|]. split; [|reflexivity].
  exact (proj1 (looping_anim_name_ends_with_loop Sample2.looping_entry
                  eq_refl)).
Defined.

Lemma sample_host_organized :
  SCENE_OP_retarget_batcher.crawl_and_organize Sample.host
  = Ok Sample4.organized.
Proof. vm_compute. reflexivity. Defined.

(** X20 on the sample host. *)
Lemma organized_entries_follow_metadata_witness :
  SCENE_OP_retarget_batcher.crawl_and_organize Sample.host
  = Ok Sample4.organized
  /\ exists l,
       AnimFileEntryMetadataProcessor.load_metadata_list
         (files Sample.host)
         (fix_synty_with_arp_anim_config_csv Sample.host)
         (fix_synty_with_arp_ignore_root_motion Sample.host) = Ok l.
Proof.
  split; [exact sample_host_organized|].
  destruct (organized_entries_follow_metadata Sample.host Sample4.organized
              sample_host_organized) as (l & Hload & _).
  exists l. exact Hload.
Defined.

(** X21 on the sample host. *)
Lemma operator_tpose_file_is_sound_witness :
  SCENE_OP_retarget_batcher.crawl_and_organize Sample.host
  = Ok Sample4.organized
  /\ AnimMetadataOrganizer.get_tpose_anim_file_entry Sample4.organized
     = Some (mkEntry "/r/T.fbx" "T.fbx" "T.fbx" false)
  /\ exists l,
       AnimFileEntryMetadataProcessor.load_metadata_list
         (files Sample.host)
         (fix_synty_with_arp_anim_config_csv Sample.host)
         (fix_synty_with_arp_ignore_root_motion Sample.host) = Ok l.
Proof.
  split; [exact sample_host_organized|]. split; [reflexivity|].
  destruct (operator_tpose_file_is_sound Sample.host Sample4.organized
              sample_host_organized) as (l & Hload & _).
  exists l. exact Hload.
Defined.

(** X22 on the sample host. *)
Lemma finished_run_pushes_each_matched_file_once_witness :
  SCENE_OP_retarget_batcher.execute Sample.host = (Sample.trace, Ok FINISHED)
  /\ List.filter is_export_event Sample.trace
     = [ExportSceneGltf "/out/loco.glb"; ExportSceneGltf "/out/airjump.glb";
        ExportSceneGltf "/out/base.glb"]
  /\ exists l org,
       SCENE_OP_retarget_batcher.crawl_and_organize Sample.host = Ok org
       /\ Permutation
            (List.filter is_push_event Sample.trace)
            (map push_event
                 (map snd (matched_calls l (crawled_entries Sample.host)))).
Proof.
  assert (H : SCENE_OP_retarget_batcher.execute Sample.host
              = (Sample.trace, Ok FINISHED)) by (vm_compute; reflexivity).
  split; [exact H|]. split; [reflexivity|].
  destruct (finished_run_pushes_each_matched_file_once Sample.host
              Sample.trace H) as (l & org & _ & Hco & Hperm & _).
  exists l, org. auto.
Defined.
